(** * kubecon-demo-flask: resource locator, metadata prober, snapshot bounds

    A shallow embedding of [app.py]: [get_video_path], [get_video_metadata]
    and the request handlers [metadata] and [thumbnail], with the Python
    built-ins they rely on ([float], [int], [str.split], dict access).

    Python floats are IEEE 754 binary64 values, embedded as [spec_float] at
    precision 53 and maximal exponent 1024.  A Python string is embedded as
    the Rocq string of its UTF-8 encoding, so ASCII text is itself.  The
    filesystem and the two ffmpeg entry points are an explicit [World], and
    every call that reaches them is recorded in a trace. *)

From Stdlib Require Import ZArith QArith String Ascii List Lia Bool.
From Stdlib Require Import Floats.SpecFloat.
From stdpp Require Import base option list gmap strings.

Set Warnings "-register-all".
Local Open Scope string_scope.
Local Open Scope Z_scope.

(* ===================================================================== *)
(** ** Binary64 floating point (Python's [float]) *)
(* ===================================================================== *)

Module Float64.

Definition prec : Z := 53.
Definition emax : Z := 1024.

Definition zero : spec_float := S754_zero false.
Definition nan : spec_float := S754_nan.
Definition inf (s : bool) : spec_float := S754_infinity s.

(** The float nearest to an integer (ties to even), as [float(n)] for an
    [int] and as a decimal literal without fraction denote it. *)
Definition of_Z (z : Z) : spec_float := binary_normalize prec emax z 0 false.

(** The float nearest to [(-1)^s * n / d] for positive integers [n], [d]. *)
Definition of_ratio (s : bool) (n d : positive) : spec_float :=
  SFdiv prec emax (S754_finite s n 0) (S754_finite false d 0).

Definition div : spec_float -> spec_float -> spec_float := SFdiv prec emax.
Definition eqb : spec_float -> spec_float -> bool := SFeqb.
Definition ltb : spec_float -> spec_float -> bool := SFltb.
Definition leb : spec_float -> spec_float -> bool := SFleb.

Definition is_nan (x : spec_float) : bool :=
  match x with S754_nan => true | _ => false end.

Definition is_inf (x : spec_float) : bool :=
  match x with S754_infinity _ => true | _ => false end.

(** [x] is a number (not NaN) that is at least zero; [-0.0] counts, as in
    Python's [x >= 0]. *)
Definition nonneg (x : spec_float) : bool := leb zero x.

(** Truncation toward zero of a finite float, [None] for NaN and the
    infinities. *)
Definition trunc (x : spec_float) : option Z :=
  match x with
  | S754_zero _ => Some 0
  | S754_finite s m e =>
      let a := match e with
               | Zneg p => Z.shiftr (Zpos m) (Zpos p)
               | _ => Z.shiftl (Zpos m) e
               end in
      Some (if s then - a else a)
  | _ => None
  end.

(** [x] is a zero, a finite number or an infinity of sign [s]. *)
Definition signed (s : bool) (x : spec_float) : Prop :=
  match x with
  | S754_zero s' | S754_infinity s' | S754_finite s' _ _ => s' = s
  | S754_nan => False
  end.

(** The rational a finite float denotes. *)
Definition to_Q (x : spec_float) : option Q :=
  match x with
  | S754_zero _ => Some 0%Q
  | S754_finite s m e =>
      Some (inject_Z (if s then Zneg m else Zpos m) * Qpower 2 e)%Q
  | _ => None
  end.

(** [lo <= x <= hi] for a finite float [x] and rationals [lo], [hi]. *)
Definition within (lo hi : Q) (x : spec_float) : Prop :=
  match to_Q x with
  | Some q => (lo <= q)%Q /\ (q <= hi)%Q
  | None => False
  end.

End Float64.

(* ===================================================================== *)
(** ** Python strings: [split], whitespace, numeric literals *)
(* ===================================================================== *)

Module PyStr.

Definition code (c : ascii) : Z := Z.of_nat (nat_of_ascii c).

Definition is_digit (c : ascii) : bool := (48 <=? code c) && (code c <=? 57).
Definition digit_val (c : ascii) : Z := code c - 48.

(** The whitespace [float] and [int] strip, C's [Py_ISSPACE]: TAB, LF, VT,
    FF, CR and the space. *)
Definition is_space (c : ascii) : bool :=
  ((9 <=? code c) && (code c <=? 13)) || (code c =? 32).

(** The code points from 128 on that Python counts as whitespace. *)
Definition unicode_space (cp : Z) : bool :=
  (cp =? 0x85) || (cp =? 0xA0) || (cp =? 0x1680)
  || ((0x2000 <=? cp) && (cp <=? 0x200A))
  || (cp =? 0x2028) || (cp =? 0x2029) || (cp =? 0x202F) || (cp =? 0x205F)
  || (cp =? 0x3000).

(** The digit zero of every decimal digit system beyond ASCII, by code
    point; the nine code points after each are its digits 1 to 9. The
    table is that of Unicode 14.0, the character database of CPython
    3.11. *)
Definition decimal_zeros : list Z :=
  [
    0x660; 0x6F0; 0x7C0; 0x966; 0x9E6; 0xA66; 0xAE6; 0xB66; 0xBE6; 0xC66;
    0xCE6; 0xD66; 0xDE6; 0xE50; 0xED0; 0xF20; 0x1040; 0x1090; 0x17E0;
    0x1810; 0x1946; 0x19D0; 0x1A80; 0x1A90; 0x1B50; 0x1BB0; 0x1C40; 0x1C50;
    0xA620; 0xA8D0; 0xA900; 0xA9D0; 0xA9F0; 0xAA50; 0xABF0; 0xFF10; 0x104A0;
    0x10D30; 0x11066; 0x110F0; 0x11136; 0x111D0; 0x112F0; 0x11450; 0x114D0;
    0x11650; 0x116C0; 0x11730; 0x118E0; 0x11950; 0x11C50; 0x11D50; 0x11DA0;
    0x16A60; 0x16AC0; 0x16B50; 0x1D7CE; 0x1D7D8; 0x1D7E2; 0x1D7EC; 0x1D7F6;
    0x1E140; 0x1E2F0; 0x1E950; 0x1FBF0
  ].

(** [Py_UNICODE_TODECIMAL] for a code point from 128 on. *)
Definition to_decimal (cp : Z) : option Z :=
  match List.find (fun z => (z <=? cp) && (cp <? z + 10)) decimal_zeros with
  | Some z => Some (cp - z)
  | None => None
  end.

Definition is_ascii_char (c : ascii) : bool := code c <? 128.

Fixpoint is_ascii (s : string) : bool :=
  match s with
  | EmptyString => true
  | String c s' => is_ascii_char c && is_ascii s'
  end.

(** A continuation byte of UTF-8. *)
Definition is_cont (c : ascii) : bool := (128 <=? code c) && (code c <=? 191).
Definition cont (c : ascii) : Z := code c - 128.

(** What a code point from 127 on becomes, before [rest]: a space for
    whitespace, its ASCII digit for a decimal digit, and otherwise ['?'],
    at which the result ends. *)
Definition emit (cp : Z) (rest : string) : string :=
  if unicode_space cp then String " " rest
  else match to_decimal cp with
       | Some d => String (ascii_of_nat (Z.to_nat (48 + d))) rest
       | None => "?"
       end.

(** The transformation of a string that is not pure ASCII, code point by
    code point. A Python string is embedded as its UTF-8 encoding: one
    byte below 128, or a lead byte and one to three continuation bytes;
    bytes that encode no code point are treated as a character that is
    neither whitespace nor a digit. *)
Fixpoint transform (s : string) : string :=
  match s with
  | EmptyString => EmptyString
  | String a r =>
      let x := code a in
      if x <? 127 then String a (transform r)
      else
        match r with
        | String b r1 =>
            if (194 <=? x) && (x <=? 223) && is_cont b then
              emit ((x - 192) * 64 + cont b) (transform r1)
            else
              match r1 with
              | String c r2 =>
                  let cp3 := (x - 224) * 4096 + cont b * 64 + cont c in
                  if (224 <=? x) && (x <=? 239) && is_cont b && is_cont c
                     && (0x800 <=? cp3) then emit cp3 (transform r2)
                  else
                    match r2 with
                    | String d r3 =>
                        let cp4 := (x - 240) * 262144 + cont b * 4096
                                   + cont c * 64 + cont d in
                        if (240 <=? x) && (x <=? 244) && is_cont b && is_cont c
                           && is_cont d && (0x10000 <=? cp4) && (cp4 <=? 0x10FFFF)
                        then emit cp4 (transform r3)
                        else "?"
                    | EmptyString => "?"
                    end
              | EmptyString => "?"
              end
        | EmptyString => "?"
        end
  end.

(** [_PyUnicode_TransformDecimalAndSpaceToASCII], which [float] and [int]
    apply to a string before reading it: an ASCII string is left as it is;
    in any other string the whitespace beyond ASCII becomes a space and
    the decimal digits of other scripts become ASCII digits. *)
Definition ascii_image (s : string) : string :=
  if is_ascii s then s else transform s.

Definition lower (c : ascii) : ascii :=
  if (65 <=? code c) && (code c <=? 90)
  then ascii_of_nat (nat_of_ascii c + 32) else c.

Fixpoint to_lower (s : string) : string :=
  match s with
  | EmptyString => EmptyString
  | String c s' => String (lower c) (to_lower s')
  end.

(** [s.split(sep)] for a one-character separator: every occurrence
    splits, so the result has one more element than [s] has separators. *)
Fixpoint split (sep : ascii) (s : string) : list string :=
  match s with
  | EmptyString => [EmptyString]
  | String c s' =>
      if Ascii.eqb c sep then EmptyString :: split sep s'
      else match split sep s' with
           | [] => [String c EmptyString]
           | w :: ws => String c w :: ws
           end
  end.

(** [sep in s] for a one-character [sep]. *)
Fixpoint contains (sep : ascii) (s : string) : bool :=
  match s with
  | EmptyString => false
  | String c s' => Ascii.eqb c sep || contains sep s'
  end.

Fixpoint lstrip (s : string) : string :=
  match s with
  | String c s' => if is_space c then lstrip s' else s
  | EmptyString => EmptyString
  end.

(** Removes trailing whitespace: a character is kept when it is not
    whitespace or when something is kept after it. *)
Fixpoint rstrip (s : string) : string :=
  match s with
  | EmptyString => EmptyString
  | String c s' =>
      match rstrip s' with
      | EmptyString => if is_space c then EmptyString else String c EmptyString
      | r => String c r
      end
  end.

Definition strip (s : string) : string := rstrip (lstrip s).

(** The rest of a digit part, [(["_"] digit)*], after its first digit:
    [acc] is the value read so far and [n] the number of digits.  Reading
    stops before the first character that cannot continue the digit part
    (an underscore not followed by a digit included). *)
Fixpoint digits_tail (acc : Z) (n : Z) (s : string) : Z * Z * string :=
  match s with
  | String c s' =>
      if is_digit c then digits_tail (10 * acc + digit_val c) (n + 1) s'
      else if Ascii.eqb c "_" then
        match s' with
        | String d s'' =>
            if is_digit d then digits_tail (10 * acc + digit_val d) (n + 1) s''
            else (acc, n, s)
        | EmptyString => (acc, n, s)
        end
      else (acc, n, s)
  | EmptyString => (acc, n, s)
  end.

(** [digitpart ::= digit (["_"] digit)*], continuing the value [acc]:
    the value, the number of digits read and the rest of the string. *)
Definition digitpart (acc : Z) (s : string) : option (Z * Z * string) :=
  match s with
  | String c s' =>
      if is_digit c then Some (digits_tail (10 * acc + digit_val c) 1 s') else None
  | EmptyString => None
  end.

(** An optional sign: [true] for a minus. *)
Definition sign (s : string) : bool * string :=
  match s with
  | String "+" s' => (false, s')
  | String "-" s' => (true, s')
  | _ => (false, s)
  end.

(** Default of [sys.get_int_max_str_digits()]: [int] refuses a decimal
    string with more digits. *)
Definition int_max_str_digits : Z := 4300.

(** [int(s)] for a string, base 10: surrounding whitespace, an optional
    sign, one digit part; [None] where Python raises [ValueError]. *)
Definition parse_int (s : string) : option Z :=
  let '(neg, body) := sign (strip (ascii_image s)) in
  match digitpart 0 body with
  | Some (v, n, EmptyString) =>
      if n <=? int_max_str_digits then Some (if neg then - v else v) else None
  | _ => None
  end.

(** [[e|E] [sign] digitpart] at the end of a float literal; the empty
    string is exponent 0. *)
Definition exponent (s : string) : option Z :=
  match s with
  | EmptyString => Some 0
  | String c s' =>
      if Ascii.eqb (lower c) "e" then
        let '(neg, body) := sign s' in
        match digitpart 0 body with
        | Some (v, _, EmptyString) => Some (if neg then - v else v)
        | _ => None
        end
      else None
  end.

(** The mantissa of a float literal,
    [[digitpart] "." digitpart | digitpart ["."]]: its digits read as one
    integer, the number of digits after the point, and the rest. *)
Definition mantissa (s : string) : option (Z * Z * string) :=
  match digitpart 0 s with
  | Some (i, _, String "." r) =>
      match digitpart i r with
      | Some (v, nf, r') => Some (v, nf, r')
      | None => Some (i, 0, r)
      end
  | Some (i, _, r) => Some (i, 0, r)
  | None =>
      match s with
      | String "." r => digitpart 0 r
      | _ => None
      end
  end.

(** The float nearest to [(-1)^neg * v * 10^k]. *)
Definition decimal (neg : bool) (v k : Z) : spec_float :=
  match v with
  | Zpos p =>
      match k with
      | Zneg q => Float64.of_ratio neg p (Z.to_pos (10 ^ Zpos q))
      | _ => Float64.of_ratio neg (Z.to_pos (Zpos p * 10 ^ k)) 1
      end
  | _ => S754_zero neg
  end.

(** [float(s)] for a string: surrounding whitespace, an optional sign,
    then [inf], [infinity] or [nan] in any letter case, or a decimal
    literal with optional fraction and exponent, rounded to the nearest
    binary64 value; [None] where Python raises [ValueError]. *)
Definition parse_float (s : string) : option spec_float :=
  let '(neg, body) := sign (strip (ascii_image s)) in
  let low := to_lower body in
  if String.eqb low "inf" || String.eqb low "infinity" then Some (Float64.inf neg)
  else if String.eqb low "nan" then Some Float64.nan
  else
    match mantissa body with
    | Some (v, nf, r) =>
        match exponent r with
        | Some e => Some (decimal neg v (e - nf))
        | None => None
        end
    | None => None
    end.

End PyStr.

(* ===================================================================== *)
(** ** Python values, exceptions and results *)
(* ===================================================================== *)

(** What [json.loads] produces, which is what [ffmpeg.probe] returns: a
    number without fraction or exponent is an [int], any other number a
    [float], an object a [dict] with string keys. *)
Inductive json : Type :=
| JNull
| JBool (b : bool)
| JInt (z : Z)
| JFloat (f : spec_float)
| JStr (s : string)
| JList (l : list json)
| JObj (m : gmap string json).

(** The exception classes the modelled code can raise or meet.
    [FfmpegError] is [ffmpeg.Error], raised by [ffmpeg.probe] and by [run]
    when the external process fails. *)
Inductive exn : Type :=
| ProbeError (msg : string)
| FfmpegError (stderr : string)
| KeyError (key : string)
| TypeError
| ValueError
| AttributeError
| OverflowError
| ZeroDivisionError.

Definition is_ProbeError (e : exn) : bool :=
  match e with ProbeError _ => true | _ => false end.

(** The result of evaluating a Python expression: a value or a raised
    exception. *)
Inductive Res (A : Type) : Type :=
| Ok (a : A)
| Err (e : exn).
Arguments Ok {A} a.
Arguments Err {A} e.

#[global] Instance Res_ret : MRet Res := fun A a => Ok a.
#[global] Instance Res_bind : MBind Res := fun A B f r =>
  match r with
  | Ok a => f a
  | Err e => Err e
  end.

Definition of_option {A} (e : exn) (o : option A) : Res A :=
  match o with
  | Some a => Ok a
  | None => Err e
  end.

(* ===================================================================== *)
(** ** Python built-ins used by the prober *)
(* ===================================================================== *)

Module Py.

(** [v[k]] for a string key [k]: only a [dict] can be indexed by a
    string. *)
Definition getitem (v : json) (k : string) : Res json :=
  match v with
  | JObj m => of_option (KeyError k) (m !! k)
  | _ => Err TypeError
  end.

(** [v.get(k, d)]: defined on a [dict] only. *)
Definition get (v : json) (k : string) (d : json) : Res json :=
  match v with
  | JObj m => Ok (default d (m !! k))
  | _ => Err AttributeError
  end.

(** The items [for x in v] goes through.  A [dict] yields its keys and a
    string its characters. *)
Definition iter (v : json) : Res (list json) :=
  match v with
  | JList l => Ok l
  | JObj m => Ok (JStr <$> (map_to_list m).*1)
  | JStr s => Ok ((fun c => JStr (String c EmptyString)) <$> list_ascii_of_string s)
  | _ => Err TypeError
  end.

(** [v == s] for a string constant [s]. *)
Definition eq_str (v : json) (s : string) : bool :=
  match v with
  | JStr t => String.eqb t s
  | _ => false
  end.

(** Truth value of an object, as [if v] and [not v] test it. *)
Definition truthy (v : json) : bool :=
  match v with
  | JNull => false
  | JBool b => b
  | JInt z => negb (z =? 0)
  | JFloat f => negb (Float64.eqb f Float64.zero)
  | JStr s => negb (String.eqb s "")
  | JList l => match l with [] => false | _ => true end
  | JObj m => negb (bool_decide (m = ∅))
  end.

(** [int(v)]. *)
Definition int (v : json) : Res Z :=
  match v with
  | JInt z => Ok z
  | JBool b => Ok (if b then 1 else 0)
  | JFloat f =>
      if Float64.is_nan f then Err ValueError
      else of_option OverflowError (Float64.trunc f)
  | JStr s => of_option ValueError (PyStr.parse_int s)
  | _ => Err TypeError
  end.

(** [float(v)]. *)
Definition float (v : json) : Res spec_float :=
  match v with
  | JFloat f => Ok f
  | JInt z =>
      let f := Float64.of_Z z in
      if Float64.is_inf f then Err OverflowError else Ok f
  | JBool b => Ok (Float64.of_Z (if b then 1 else 0))
  | JStr s => of_option ValueError (PyStr.parse_float s)
  | _ => Err TypeError
  end.

(** [float(s)] for a string. *)
Definition float_str (s : string) : Res spec_float :=
  of_option ValueError (PyStr.parse_float s).

(** [a / b] on floats. *)
Definition truediv (a b : spec_float) : Res spec_float :=
  if Float64.eqb b Float64.zero then Err ZeroDivisionError
  else Ok (Float64.div a b).

(** [v.split(sep)]: a method of strings only. *)
Definition split (v : json) (sep : ascii) : Res (list string) :=
  match v with
  | JStr s => Ok (PyStr.split sep s)
  | _ => Err AttributeError
  end.

(** [a, b = l]: the list must have exactly two elements. *)
Definition unpack2 {A} (l : list A) : Res (A * A) :=
  match l with
  | [a; b] => Ok (a, b)
  | _ => Err ValueError
  end.

End Py.

(* ===================================================================== *)
(** ** The outside world and the trace of calls that reach it *)
(* ===================================================================== *)

(** What the program reads from its environment: [os.path.exists],
    [ffmpeg.probe] (the parsed JSON of ffprobe, or the exception raised),
    and the one-frame extraction
    [ffmpeg.input(path, ss=t).output('pipe:', ...).run(...)], whose standard
    output is the PNG image. *)
Record World : Type := {
  os_path_exists : string -> bool;
  ffmpeg_probe : string -> Res json;
  ffmpeg_run : string -> spec_float -> Res string
}.

Inductive event : Type :=
| EvExists (path : string)
| EvProbe (path : string)
| EvRun (path : string) (ss : spec_float).

Definition is_EvRun (ev : event) : bool :=
  match ev with EvRun _ _ => true | _ => false end.

Definition is_EvExists (ev : event) : bool :=
  match ev with EvExists _ => true | _ => false end.

(** A computation: the calls it made, in order, and how it ended. *)
Record M (A : Type) : Type := mkM { trace : list event; outcome : Res A }.
Arguments mkM {A} trace outcome.
Arguments trace {A} m.
Arguments outcome {A} m.

#[global] Instance M_ret : MRet M := fun A a => mkM [] (Ok a).
#[global] Instance M_bind : MBind M := fun A B f m =>
  match outcome m with
  | Ok a => mkM (trace m ++ trace (f a)) (outcome (f a))
  | Err e => mkM (trace m) (Err e)
  end.

Definition lift {A} (r : Res A) : M A := mkM [] r.

(** [try: x = m  except <caught> as exc: <handler>] followed by [k x]. *)
Definition try_except {A B} (m : M A) (caught : exn -> bool)
    (handler : exn -> M B) (k : A -> M B) : M B :=
  match outcome m with
  | Ok a => mkM (trace m ++ trace (k a)) (outcome (k a))
  | Err e =>
      if caught e then mkM (trace m ++ trace (handler e)) (outcome (handler e))
      else mkM (trace m) (Err e)
  end.

(* ===================================================================== *)
(** ** app.py *)
(* ===================================================================== *)

Record VideoMetadata : Type := {
  codec : json;
  width : Z;
  height : Z;
  duration : spec_float;
  framerate : spec_float
}.

(** The bodies Flask sends back. [JsonErrorExc st err key exc] is
    [jsonify({'error': err, key: str(exc)}), st]. *)
Inductive Response : Type :=
| JsonError (status : Z) (error : string)
| JsonErrorExc (status : Z) (error : string) (key : string) (exc : exn)
| JsonMeta (meta : VideoMetadata)
| Data (data : string) (mimetype : string).

(** [request.args], with the first value of each query parameter. *)
Record Request : Type := { args : gmap string string }.

Definition VIDEO_PATH : string := "static/video.mp4".

(** Truth value of an optional string: [None] and [''] are false. *)
Definition str_truthy (s : option string) : bool :=
  match s with
  | None => false
  | Some t => negb (String.eqb t "")
  end.

(** [f"{s}"] for an optional string. *)
Definition fstr (s : option string) : string :=
  match s with
  | None => "None"
  | Some t => t
  end.

(** [f"static/cache/cached_{video_id}.mp4"]. *)
Definition cache_path (video_id : option string) : string :=
  "static/cache/cached_" +:+ fstr video_id +:+ ".mp4".

(** [next((stream for stream in streams if stream['codec_type'] == 'video'),
    None)]: the streams are examined in order, up to the first match. *)
Fixpoint next_video_stream (streams : list json) : Res json :=
  match streams with
  | [] => Ok JNull
  | stream :: rest =>
      t ← Py.getitem stream "codec_type";
      if Py.eq_str t "video" then Ok stream else next_video_stream rest
  end.

(** Lines 43-46 of [get_video_metadata]. *)
Definition video_stream_of (probe : json) : Res json :=
  streams ← Py.getitem probe "streams";
  items ← Py.iter streams;
  next_video_stream items.

(** Lines 54-56 of [get_video_metadata]: the conditional expression tests
    [float(den) != 0] first and converts [num] only when the test holds. *)
Definition framerate_of (video_stream : json) : Res spec_float :=
  r_frame_rate ← Py.get video_stream "r_frame_rate" (JStr "0/0");
  parts ← Py.split r_frame_rate "/";
  '(num, den) ← Py.unpack2 parts;
  d ← Py.float_str den;
  if negb (Float64.eqb d Float64.zero) then
    n ← Py.float_str num;
    d' ← Py.float_str den;
    Py.truediv n d'
  else Ok Float64.zero.

(** Lines 43-63 of [get_video_metadata]: everything after the probe. *)
Definition metadata_of_probe (probe : json) : Res VideoMetadata :=
  video_stream ← video_stream_of probe;
  if negb (Py.truthy video_stream) then Err (ProbeError "No video stream found")
  else
    codec ← Py.get video_stream "codec_name" (JStr "unknown");
    width ← Py.get video_stream "width" (JInt 0) ≫= Py.int;
    height ← Py.get video_stream "height" (JInt 0) ≫= Py.int;
    duration ← (Py.getitem probe "format" ≫= fun fmt => Py.getitem fmt "duration")
                 ≫= Py.float;
    framerate ← framerate_of video_stream;
    Ok {| codec := codec; width := width; height := height;
          duration := duration; framerate := framerate |}.

Section Program.

Context (w : World).

Definition exists_io (path : string) : M bool :=
  mkM [EvExists path] (Ok (os_path_exists w path)).

Definition probe_io (path : string) : M json :=
  mkM [EvProbe path] (ffmpeg_probe w path).

Definition run_io (path : string) (ss : spec_float) : M string :=
  mkM [EvRun path ss] (ffmpeg_run w path ss).

Definition get_video_path (video_id : option string) : M (option string) :=
  if negb (str_truthy video_id) then mret (Some VIDEO_PATH)
  else
    let path := cache_path video_id in
    found ← exists_io path;
    if (found : bool) then mret (Some path) else mret None.

Definition get_video_metadata (video_path : string) : M VideoMetadata :=
  probe ← probe_io video_path;
  lift (metadata_of_probe probe).

(** The guard shared by the handlers:
    [if video_id and video_path is None: return ..., 404]. After it the
    path is a string: a false [video_id] always resolves to [VIDEO_PATH],
    so the last case is never reached ([resolved_path_is_string]). *)
Definition with_video_path (video_id : option string)
    (k : string -> M Response) : M Response :=
  video_path ← get_video_path video_id;
  match video_path with
  | Some path => k path
  | None =>
      if str_truthy video_id then
        mret (JsonError 404 ("Cached video not found for video_id " +:+ fstr video_id))
      else lift (Err TypeError)
  end.

Definition metadata (request : Request) : M Response :=
  let video_id := args request !! "video_id" in
  with_video_path video_id (fun video_path =>
    try_except (get_video_metadata video_path) is_ProbeError
      (fun exc => mret (JsonErrorExc 500 "Unable to retrieve video metadata" "message" exc))
      (fun meta => mret (JsonMeta meta))).

(** The test of line 104: [timestamp < 0 or timestamp > meta['duration']]. *)
Definition out_of_bounds (timestamp d : spec_float) : bool :=
  Float64.ltb timestamp Float64.zero || Float64.ltb d timestamp.

Definition run_caught (e : exn) : bool :=
  match e with ValueError | FfmpegError _ => true | _ => false end.

(** Lines 104-117 of [thumbnail]: the bounds test and the extraction. *)
Definition extract_frame (video_path : string) (timestamp d : spec_float)
    : M Response :=
  if out_of_bounds timestamp d then
    mret (JsonError 400 "Timestamp out of video duration bounds")
  else
    try_except (run_io video_path timestamp) run_caught
      (fun exc => mret (JsonErrorExc 500 "Error generating thumbnail" "details" exc))
      (fun out => mret (Data out "image/png")).

Definition thumbnail (request : Request) : M Response :=
  match args request !! "timestamp" ≫= PyStr.parse_float with
  | None => mret (JsonError 400 "Missing timestamp parameter")
  | Some timestamp =>
      let video_id := args request !! "video_id" in
      with_video_path video_id (fun video_path =>
        try_except (get_video_metadata video_path) is_ProbeError
          (fun exc => mret (JsonErrorExc 500 "Unable to retrieve video metadata" "message" exc))
          (fun meta => extract_frame video_path timestamp (duration meta)))
  end.

End Program.

(* ===================================================================== *)
(** ** Notions the properties are stated with *)
(* ===================================================================== *)

(** A stream descriptor that declares the codec type ['video']. *)
Definition declares_video (stream : json) : bool :=
  match stream with
  | JObj m => match m !! "codec_type" with
              | Some t => Py.eq_str t "video"
              | None => false
              end
  | _ => false
  end.

(** A stream descriptor that declares a codec type other than ['video']. *)
Definition declares_other (stream : json) : bool :=
  match stream with
  | JObj m => match m !! "codec_type" with
              | Some t => negb (Py.eq_str t "video")
              | None => false
              end
  | _ => false
  end.

(** A frame-rate value made of exactly two ['/']-separated substrings, each
    of which [float] can parse. *)
Definition frame_rate_parsable (s : string) : bool :=
  match PyStr.split "/" s with
  | [num; den] =>
      bool_decide (is_Some (PyStr.parse_float num))
      && bool_decide (is_Some (PyStr.parse_float den))
  | _ => false
  end.

(** The record invariant of [VideoMetadata]: no negative dimension, and a
    duration and a frame rate that are numbers at least zero. *)
Definition metadata_invariant (meta : VideoMetadata) : Prop :=
  0 <= width meta /\ 0 <= height meta
  /\ Float64.nonneg (duration meta) = true
  /\ Float64.nonneg (framerate meta) = true.

(** [P] holds of the value of [r], if [r] has one. *)
Definition when_Ok {A} (P : A -> bool) (r : Res A) : bool :=
  match r with
  | Ok a => P a
  | Err _ => true
  end.

(** A frame-rate value whose numerator and denominator, where both can be
    parsed, are numbers at least zero and not both infinite. *)
Definition nonneg_rate (r_frame_rate : json) : bool :=
  match r_frame_rate with
  | JStr s =>
      match PyStr.split "/" s with
      | [num; den] =>
          match PyStr.parse_float num, PyStr.parse_float den with
          | Some n, Some d =>
              Float64.nonneg n && Float64.nonneg d
              && negb (Float64.is_inf n && Float64.is_inf d)
          | _, _ => true
          end
      | _ => true
      end
  | _ => true
  end.

(** The bounds the snapshot step is specified with: [0 <= t <= d]. *)
Definition in_bounds (t d : spec_float) : bool :=
  Float64.leb Float64.zero t && Float64.leb t d.

Module Path.

(** One step of lexical path resolution: empty components and ['.'] are
    skipped, ['..'] leaves the directory reached so far.  [stack] holds
    the components reached, innermost first; [None] when the path climbs
    above the directory it starts from. *)
Fixpoint resolve (stack : list string) (parts : list string)
    : option (list string) :=
  match parts with
  | [] => Some (rev stack)
  | part :: rest =>
      if String.eqb part "" || String.eqb part "." then resolve stack rest
      else if String.eqb part ".." then
        match stack with
        | [] => None
        | _ :: stack' => resolve stack' rest
        end
      else resolve (part :: stack) rest
  end.

(** The components of a relative path once ['.'] and ['..'] are
    resolved. *)
Definition normalize (path : string) : option (list string) :=
  resolve [] (PyStr.split "/" path).

(** The path names an entry below the cache directory [static/cache]. *)
Definition inside_cache (path : string) : bool :=
  match normalize path with
  | Some ("static" :: "cache" :: _ :: _) => true
  | _ => false
  end.

End Path.

(** Concrete inputs the statements below are exercised on. *)
Module Samples.

Definition obj (fields : list (string * json)) : json :=
  JObj (list_to_map fields).

Definition request (params : list (string * string)) : Request :=
  {| args := list_to_map params |}.

(** A 640x480 H.264 stream at the given frame rate. *)
Definition video_stream (r_frame_rate : string) : gmap string json :=
  list_to_map
    [("codec_type", JStr "video"); ("codec_name", JStr "h264");
     ("width", JInt 640); ("height", JInt 480);
     ("r_frame_rate", JStr r_frame_rate)].

Definition audio_stream : json :=
  obj [("codec_type", JStr "audio"); ("codec_name", JStr "aac")].

(** ffprobe's answer for a ten second file with an audio stream followed
    by a video stream. *)
Definition probe_of (r_frame_rate : string) : json :=
  obj [("streams", JList [audio_stream; JObj (video_stream r_frame_rate)]);
       ("format", obj [("duration", JStr "10.000000")])].

(** The same with a format section that has no duration. *)
Definition format_without_duration : gmap string json :=
  list_to_map [("filename", JStr "static/video.mp4")].

Definition probe_without_duration : json :=
  obj [("streams", JList [JObj (video_stream "30/1")]);
       ("format", JObj format_without_duration)].

(** A probe result whose declared values are all negative. *)
Definition negative_probe : json :=
  obj [("streams",
        JList [obj [("codec_type", JStr "video"); ("width", JInt (-640));
                    ("height", JInt (-480)); ("r_frame_rate", JStr "-30/1")]]);
       ("format", obj [("duration", JStr "-10.0")])].

(** A world whose cache holds exactly the paths in [cached], where every
    file probes as [probe] and extraction yields the bytes ["PNG"]. *)
Definition world (cached : list string) (probe : Res json) : World :=
  {| os_path_exists := fun path => bool_decide (path ∈ cached);
     ffmpeg_probe := fun _ => probe;
     ffmpeg_run := fun _ _ => Ok "PNG" |}.

End Samples.

(* ===================================================================== *)
(** ** app.py: the remaining handlers *)
(* ===================================================================== *)

(** What [serve_video] returns: the 404 JSON body, or
    [send_file(path, mimetype=...)]. *)
Inductive ServeResponse : Type :=
| ServeError (r : Response)
| SendFile (path : string) (mimetype : string).

Section ServeVideo.

Context (w : World).

(** Lines 127-131. As in [with_video_path], the case of a false
    [video_id] with no path is never reached. *)
Definition serve_video (request : Request) : M ServeResponse :=
  let video_id := args request !! "video_id" in
  video_path ← get_video_path w video_id;
  match video_path with
  | Some path => mret (SendFile path "video/mp4")
  | None =>
      if str_truthy video_id then
        mret (ServeError
                (JsonError 404 ("Cached video not found for video_id "
                                +:+ fstr video_id)))
      else lift (Err TypeError)
  end.

End ServeVideo.

(** How [ydl.extract_info(url, download=True)] ends under the options of
    [set_video]: with the info dict, with [yt_dlp.utils.YoutubeDLError] and
    its text, or with another exception. *)
Inductive Download : Type :=
| Extracted (info : json)
| YoutubeDLError (msg : string)
| DownloadRaised (e : exn).

(** The bodies [set_video] sends back: [jsonify({'error': ...}), status],
    the same with [details], and the success message with the id. *)
Inductive SetVideoResponse : Type :=
| SetError (status : Z) (error : string)
| SetErrorDetails (status : Z) (error : string) (details : string)
| SetUpdated (video_id : json).

(** A run of [set_video]: the URLs handed to yt-dlp, in order, and the
    reply. *)
Record SetVideoRun : Type := {
  downloads : list json;
  reply : Res SetVideoResponse
}.

(** Lines 142-159, for the parsed JSON body [request_json] of the POST. *)
Definition set_video (extract_info : json -> Download) (request_json : json)
    : SetVideoRun :=
  match Py.get request_json "youtube_url" JNull with
  | Err e => {| downloads := []; reply := Err e |}
  | Ok youtube_url =>
      if negb (Py.truthy youtube_url) then
        {| downloads := [];
           reply := Ok (SetError 400 "No YouTube URL provided") |}
      else
        {| downloads := [youtube_url];
           reply :=
             match extract_info youtube_url with
             | Extracted info =>
                 video_id ← Py.get info "id" JNull;
                 if negb (Py.truthy video_id) then
                   Ok (SetError 400 "Unable to extract video id")
                 else Ok (SetUpdated video_id)
             | YoutubeDLError msg =>
                 Ok (SetErrorDetails 500 "Error downloading video" msg)
             | DownloadRaised e => Err e
             end |}
  end.

(* ===================================================================== *)
(** ** Further notions *)
(* ===================================================================== *)

(** The number of occurrences of [sep] in [s]. *)
Fixpoint count_char (sep : ascii) (s : string) : nat :=
  match s with
  | EmptyString => 0%nat
  | String c s' => ((if Ascii.eqb c sep then 1 else 0) + count_char sep s')%nat
  end.

(** The exceptions the body of the prober can end with. *)
Definition prober_raises (e : exn) : bool :=
  match e with
  | ProbeError msg => String.eqb msg "No video stream found"
  | KeyError key =>
      bool_decide (key ∈ ["streams"; "codec_type"; "format"; "duration"])
  | TypeError | ValueError | AttributeError | OverflowError => true
  | FfmpegError _ | ZeroDivisionError => false
  end.

(** The path a request's [video_id] stands for: the default path for an
    absent or empty id, else the cache path of the id. *)
Definition requested_path (request : Request) : string :=
  if str_truthy (args request !! "video_id") then
    cache_path (args request !! "video_id")
  else VIDEO_PATH.

(** The request is for the default video, or for a cached file that
    exists. *)
Definition available (w : World) (request : Request) : bool :=
  negb (str_truthy (args request !! "video_id"))
  || os_path_exists w (requested_path request).

(** The existence check a request causes: one for a true [video_id], none
    otherwise. *)
Definition check_trace (request : Request) : list event :=
  if str_truthy (args request !! "video_id") then
    [EvExists (requested_path request)]
  else [].

(** The 404 body of the three GET handlers. *)
Definition not_found (request : Request) : Response :=
  JsonError 404 ("Cached video not found for video_id "
                 +:+ fstr (args request !! "video_id")).

(** The request with its [video_id] parameter removed. *)
Definition without_video_id (request : Request) : Request :=
  {| args := delete "video_id" (args request) |}.

(* ===================================================================== *)
(** ** The model on concrete inputs *)
(* ===================================================================== *)

(** [float] on strings: 0.1 is [0x1.999999999999ap-4]; an exponent and
    underscores between digits are read; the smallest subnormal and the
    overflow to infinity are reached; malformed literals are refused. *)
Example parse_float_tenth :
  PyStr.parse_float "0.1" = Some (S754_finite false 7205759403792794 (-56)).
Proof. vm_compute. reflexivity. Qed.

Example parse_float_forms :
  PyStr.parse_float " -0.5e1 " = Some (Float64.of_Z (-5))
  /\ PyStr.parse_float "1_0.2_5E+0_1" = Some (Float64.of_ratio false 205 2)
  /\ PyStr.parse_float "1." = Some (Float64.of_Z 1)
  /\ PyStr.parse_float ".5" = Some (Float64.of_ratio false 1 2)
  /\ PyStr.parse_float "-0" = Some (S754_zero true)
  /\ PyStr.parse_float "-Infinity" = Some (Float64.inf true)
  /\ PyStr.parse_float "NaN" = Some Float64.nan
  /\ PyStr.parse_float "4.9e-324" = Some (S754_finite false 1 (-1074))
  /\ PyStr.parse_float "1e400" = Some (Float64.inf false).
Proof. repeat split; vm_compute; reflexivity. Qed.

(** Beyond ASCII, [float] and [int] read the decimal digits of other
    scripts and strip Unicode whitespace (here ARABIC-INDIC DIGIT FIVE and
    a leading NO-BREAK SPACE, bytes 194 160); the separators FS to US are
    whitespace for [str.isspace] but not for [float] and [int]. *)
Example parse_unicode :
  PyStr.parse_float "٥" = Some (Float64.of_Z 5)
  /\ PyStr.parse_int "١٢_٣" = Some 123
  /\ PyStr.parse_float (String (ascii_of_nat 194) (String (ascii_of_nat 160) "5"))
     = Some (Float64.of_Z 5)
  /\ PyStr.parse_float (String (ascii_of_nat 28) "5") = None
  /\ PyStr.parse_int (String "7" (String (ascii_of_nat 31) "")) = None
  /\ PyStr.parse_float "5é" = None.
Proof. repeat split; vm_compute; reflexivity. Qed.

Example parse_float_refused :
  PyStr.parse_float "" = None /\ PyStr.parse_float "." = None
  /\ PyStr.parse_float "1e" = None /\ PyStr.parse_float "1__0" = None
  /\ PyStr.parse_float "1_" = None /\ PyStr.parse_float "_1" = None
  /\ PyStr.parse_float "1 2" = None /\ PyStr.parse_float "0x10" = None
  /\ PyStr.parse_float "abc" = None.
Proof. repeat split; vm_compute; reflexivity. Qed.

Example parse_int_forms :
  PyStr.parse_int " -12_3 " = Some (-123) /\ PyStr.parse_int "007" = Some 7
  /\ PyStr.parse_int "1.0" = None /\ PyStr.parse_int "+" = None
  /\ PyStr.parse_int "" = None.
Proof. repeat split; vm_compute; reflexivity. Qed.

Example split_forms :
  PyStr.split "/" "25000/1001" = ["25000"; "1001"]
  /\ PyStr.split "/" "" = [""]
  /\ PyStr.split "/" "a//b/" = ["a"; ""; "b"; ""].
Proof. repeat split; reflexivity. Qed.

(** The end-to-end cases of the specification: a ten second 640x480 H.264
    file at 30 frames per second cached under [abc123]. *)
Example metadata_abc123 :
  metadata (Samples.world ["static/cache/cached_abc123.mp4"]
                          (Ok (Samples.probe_of "30/1")))
           (Samples.request [("video_id", "abc123")])
  = mkM [EvExists "static/cache/cached_abc123.mp4";
         EvProbe "static/cache/cached_abc123.mp4"]
        (Ok (JsonMeta {| codec := JStr "h264"; width := 640; height := 480;
                         duration := Float64.of_Z 10;
                         framerate := Float64.of_Z 30 |})).
Proof. vm_compute. reflexivity. Qed.

Example metadata_missing :
  metadata (Samples.world ["static/cache/cached_abc123.mp4"]
                          (Ok (Samples.probe_of "30/1")))
           (Samples.request [("video_id", "missing")])
  = mkM [EvExists "static/cache/cached_missing.mp4"]
        (Ok (JsonError 404 "Cached video not found for video_id missing")).
Proof. vm_compute. reflexivity. Qed.

Example thumbnail_at_5 :
  thumbnail (Samples.world ["static/cache/cached_abc123.mp4"]
                           (Ok (Samples.probe_of "30/1")))
            (Samples.request [("timestamp", "5"); ("video_id", "abc123")])
  = mkM [EvExists "static/cache/cached_abc123.mp4";
         EvProbe "static/cache/cached_abc123.mp4";
         EvRun "static/cache/cached_abc123.mp4" (Float64.of_Z 5)]
        (Ok (Data "PNG" "image/png")).
Proof. vm_compute. reflexivity. Qed.

Example thumbnail_at_15 :
  thumbnail (Samples.world ["static/cache/cached_abc123.mp4"]
                           (Ok (Samples.probe_of "30/1")))
            (Samples.request [("timestamp", "15"); ("video_id", "abc123")])
  = mkM [EvExists "static/cache/cached_abc123.mp4";
         EvProbe "static/cache/cached_abc123.mp4"]
        (Ok (JsonError 400 "Timestamp out of video duration bounds")).
Proof. vm_compute. reflexivity. Qed.

Example thumbnail_without_timestamp :
  thumbnail (Samples.world [] (Ok (Samples.probe_of "30/1")))
            (Samples.request [("timestamp", "soon")])
  = mkM [] (Ok (JsonError 400 "Missing timestamp parameter")).
Proof. vm_compute. reflexivity. Qed.

(* ===================================================================== *)
(** ** Facts about binary64 comparison and division *)
(* ===================================================================== *)

Module Float64Facts.
Import Float64.

Lemma compare_cont_opp (p q : positive) (c : comparison) :
  Pos.compare_cont c q p = CompOpp (Pos.compare_cont (CompOpp c) p q).
Proof. rewrite (Pos.compare_cont_antisym p q), CompOpp_involutive. reflexivity. Qed.

(** Swapping the operands of a comparison reverses its result. *)
Lemma SFcompare_swap (x y : spec_float) :
  SFcompare y x = option_map CompOpp (SFcompare x y).
Proof.
  destruct x as [sx|sx| |sx mx ex], y as [sy|sy| |sy my ey]; simpl;
    try reflexivity;
    try (destruct sx; reflexivity); try (destruct sy; reflexivity);
    try (destruct sx, sy; reflexivity).
  destruct sx, sy; simpl; try reflexivity;
    rewrite (Z.compare_antisym ex ey);
    destruct (ex ?= ey)%Z; simpl; try reflexivity;
    rewrite (compare_cont_opp mx my Eq); simpl;
    rewrite ?CompOpp_involutive; reflexivity.
Qed.

(** For numbers, [not (x < y)] is [y <= x]. *)
Lemma ltb_false_leb (x y : spec_float) :
  is_nan x = false -> is_nan y = false ->
  ltb x y = false <-> leb y x = true.
Proof.
  intros Hx Hy. unfold ltb, leb, SFltb, SFleb.
  rewrite (SFcompare_swap x y).
  destruct (SFcompare x y) as [[]|] eqn:E; simpl; try (split; congruence).
  destruct x, y; simpl in *; try discriminate;
    repeat match goal with b : bool |- _ => destruct b end; discriminate.
Qed.

(** NaN compares false with everything. *)
Lemma ltb_nan_l (y : spec_float) : ltb nan y = false.
Proof. reflexivity. Qed.

Lemma ltb_nan_r (x : spec_float) : ltb x nan = false.
Proof. destruct x; reflexivity. Qed.

Lemma leb_nan_l (y : spec_float) : leb nan y = false.
Proof. reflexivity. Qed.

Lemma leb_nan_r (x : spec_float) : leb x nan = false.
Proof. destruct x; reflexivity. Qed.

(** *** The sign of a rounded quotient *)

Lemma shr_1_nonneg (r : shr_record) : 0 <= shr_m r -> 0 <= shr_m (shr_1 r).
Proof.
  destruct r as [m a b]; simpl.
  destruct m as [|[p|p|]|[p|p|]]; simpl; lia.
Qed.

Lemma iter_shr_1_nonneg (p : positive) (r : shr_record) :
  0 <= shr_m r -> 0 <= shr_m (SpecFloat.iter_pos shr_1 p r).
Proof.
  revert r. induction p as [p IH|p IH|]; intros r Hr; simpl.
  - apply IH, IH, shr_1_nonneg, Hr.
  - apply IH, IH, Hr.
  - apply shr_1_nonneg, Hr.
Qed.

Lemma shr_fexp_nonneg (m e : Z) (l : location) :
  0 <= m -> 0 <= shr_m (fst (shr_fexp prec emax m e l)).
Proof.
  intros Hm. unfold shr_fexp, shr.
  assert (H0 : 0 <= shr_m (shr_record_of_loc m l))
    by (destruct l as [|[]]; simpl; exact Hm).
  destruct (fexp prec emax (Zdigits2 m + e) - e); simpl; auto.
  apply iter_shr_1_nonneg, H0.
Qed.

Lemma round_nearest_even_nonneg (m : Z) (l : location) :
  0 <= m -> 0 <= round_nearest_even m l.
Proof.
  intros Hm. destruct l as [|[]]; simpl; try lia.
  destruct (Z.even m); lia.
Qed.

(** Rounding a non-negative mantissa gives a zero, a finite number or an
    infinity of the requested sign, never NaN. *)
Lemma binary_round_aux_signed (s : bool) (m e : Z) (l : location) :
  0 <= m -> signed s (binary_round_aux prec emax s m e l).
Proof.
  intros Hm. unfold binary_round_aux.
  pose proof (shr_fexp_nonneg m e l Hm) as H1.
  destruct (shr_fexp prec emax m e l) as [r1 e1]; simpl in H1.
  pose proof (shr_fexp_nonneg _ e1 loc_Exact
                (round_nearest_even_nonneg _ (loc_of_shr_record r1) H1)) as H2.
  destruct (shr_fexp prec emax _ e1 loc_Exact) as [r2 e2]; simpl in H2.
  destruct (shr_m r2) as [|p|p]; simpl; try reflexivity; try lia.
  destruct (e2 <=? emax - prec); reflexivity.
Qed.

Lemma SFdiv_core_binary_nonneg (m1 m2 : positive) (e1 e2 : Z) :
  0 <= fst (fst (SFdiv_core_binary prec emax (Zpos m1) e1 (Zpos m2) e2)).
Proof.
  unfold SFdiv_core_binary.
  set (s := _ - _ - _).
  set (m' := match s with Z0 => Zpos m1 | Zpos _ => Z.shiftl (Zpos m1) s | Zneg _ => 0 end).
  assert (Hm' : 0 <= m').
  { subst m'. destruct s; try lia. apply Z.shiftl_nonneg. lia. }
  pose proof (Z_div_mod m' (Zpos m2) eq_refl) as Hd.
  destruct (Z.div_eucl m' (Zpos m2)) as [q r]; simpl.
  destruct Hd as [Hd Hr]. nia.
Qed.

(** The quotient of two numbers has the sign of the operands' signs
    combined, unless it is NaN ([0/0] and [inf/inf]). *)
Lemma div_finite_signed (sx sy : bool) (mx my : positive) (ex ey : Z) :
  signed (xorb sx sy) (div (S754_finite sx mx ex) (S754_finite sy my ey)).
Proof.
  unfold div, SFdiv.
  pose proof (SFdiv_core_binary_nonneg mx my ex ey) as Hq.
  destruct (SFdiv_core_binary prec emax (Zpos mx) ex (Zpos my) ey) as [[q e] l].
  apply binary_round_aux_signed, Hq.
Qed.

Lemma nonneg_signed (x : spec_float) : signed false x -> nonneg x = true.
Proof. destruct x as [s|s| |s m e]; simpl; intros H; subst; try reflexivity; destruct H. Qed.

(** A non-negative number divided by a positive number is a non-negative
    number, provided the two are not both infinite. *)
Lemma div_nonneg (x y : spec_float) :
  nonneg x = true -> nonneg y = true -> eqb y zero = false ->
  is_inf x && is_inf y = false ->
  nonneg (div x y) = true.
Proof.
  intros Hx Hy Hy0 Hinf.
  destruct x as [sx|sx| |sx mx ex], y as [sy|sy| |sy my ey];
    try discriminate; try (destruct sx; discriminate);
    try (destruct sy; discriminate).
  - destruct sy; [discriminate|]. destruct sx; reflexivity.
  - destruct sy; [discriminate|]. destruct sx; reflexivity.
  - destruct sx, sy; try discriminate. reflexivity.
  - destruct sx, sy; try discriminate. reflexivity.
  - destruct sx, sy; try discriminate.
    apply nonneg_signed, (div_finite_signed false false).
Qed.

End Float64Facts.

(* ===================================================================== *)
(** ** Facts about the string built-ins *)
(* ===================================================================== *)

Module PyStrFacts.
Import PyStr.

Lemma split_no_sep (sep : ascii) (s : string) :
  contains sep s = false -> split sep s = [s].
Proof.
  induction s as [|c s IH]; simpl; intros H; [reflexivity|].
  apply orb_false_iff in H as [Hc Hs].
  rewrite Hc, (IH Hs). reflexivity.
Qed.

Lemma split_app_sep (sep : ascii) (a b : string) :
  contains sep a = false ->
  split sep (a +:+ String sep b) = a :: split sep b.
Proof.
  induction a as [|c a IH]; simpl; intros H.
  - rewrite Ascii.eqb_refl. reflexivity.
  - apply orb_false_iff in H as [Hc Ha].
    rewrite Hc, (IH Ha). reflexivity.
Qed.

(** A string of the form [num/den] splits into exactly [num] and [den]. *)
Lemma split_pair (num den : string) :
  contains "/" num = false -> contains "/" den = false ->
  split "/" (num +:+ "/" +:+ den) = [num; den].
Proof.
  intros Hn Hd. change ("/" +:+ den) with (String "/" den).
  rewrite (split_app_sep _ _ _ Hn), (split_no_sep _ _ Hd). reflexivity.
Qed.

Lemma contains_app (sep : ascii) (a b : string) :
  contains sep (a +:+ b) = contains sep a || contains sep b.
Proof.
  induction a as [|c a IH]; simpl; [reflexivity|].
  rewrite IH. apply orb_assoc.
Qed.

End PyStrFacts.

(* ===================================================================== *)
(** ** Facts about the prober *)
(* ===================================================================== *)

Ltac res_unfold :=
  unfold mbind, mret, Res_bind, Res_ret, M_bind, M_ret, lift, of_option in *.

Ltac res_simpl := repeat (res_unfold; simpl in * ).

Section ProberFacts.

Implicit Types (streams pre post : list json) (stream v probe : json).
Implicit Types (vs : gmap string json).

Lemma declares_video_inv stream :
  declares_video stream = true ->
  exists vs, stream = JObj vs /\ vs !! "codec_type" = Some (JStr "video").
Proof.
  destruct stream as [| | | | |l|m]; simpl; try discriminate.
  destruct (m !! "codec_type") as [[]|] eqn:E; simpl; try discriminate.
  intros H%String.eqb_eq. subst. eauto.
Qed.

(** A selected stream is a non-empty dict, so [not video_stream] is false
    for it. *)
Lemma declares_video_truthy stream :
  declares_video stream = true -> Py.truthy stream = true.
Proof.
  intros (vs & -> & Hvs)%declares_video_inv. simpl.
  rewrite bool_decide_eq_false_2; [reflexivity|].
  intros ->. rewrite lookup_empty in Hvs. discriminate.
Qed.

Lemma next_video_stream_other stream streams :
  declares_other stream = true ->
  next_video_stream (stream :: streams) = next_video_stream streams.
Proof.
  destruct stream as [| | | | |l|m]; simpl; try discriminate.
  destruct (m !! "codec_type") as [t|] eqn:E; simpl; try discriminate.
  res_simpl. intros H%negb_true_iff. rewrite H. reflexivity.
Qed.

Lemma next_video_stream_video stream streams :
  declares_video stream = true ->
  next_video_stream (stream :: streams) = Ok stream.
Proof.
  destruct stream as [| | | | |l|m]; simpl; try discriminate.
  destruct (m !! "codec_type") as [t|] eqn:E; simpl; try discriminate.
  res_simpl. intros ->. reflexivity.
Qed.

(** Streams are examined in order and the first video stream is taken. *)
Lemma next_video_stream_first pre stream post :
  Forall (fun s => declares_other s = true) pre ->
  declares_video stream = true ->
  next_video_stream (pre ++ stream :: post) = Ok stream.
Proof.
  induction 1 as [|s pre Hs _ IH]; intros Hv; simpl app.
  - apply next_video_stream_video, Hv.
  - rewrite (next_video_stream_other _ _ Hs). apply IH, Hv.
Qed.

(** With no video stream the default [None] comes out. *)
Lemma next_video_stream_none streams :
  Forall (fun s => declares_other s = true) streams ->
  next_video_stream streams = Ok JNull.
Proof.
  induction 1 as [|s l Hs _ IH]; [reflexivity|].
  rewrite (next_video_stream_other _ _ Hs). exact IH.
Qed.

(** A descriptor without a codec type, met before any video stream, ends
    the search with [KeyError]. *)
Lemma next_video_stream_undeclared pre vs post :
  Forall (fun s => declares_other s = true) pre ->
  vs !! "codec_type" = None ->
  next_video_stream (pre ++ JObj vs :: post) = Err (KeyError "codec_type").
Proof.
  induction 1 as [|s pre Hs _ IH]; intros Hv; simpl app.
  - simpl. res_simpl. rewrite Hv. reflexivity.
  - rewrite (next_video_stream_other _ _ Hs). apply IH, Hv.
Qed.

(** What the search can return: the default, or a stream that declares
    the video type and is preceded only by streams of other types. *)
Lemma next_video_stream_Ok streams v :
  next_video_stream streams = Ok v ->
  (v = JNull /\ Forall (fun s => declares_other s = true) streams)
  \/ (exists pre post, streams = (pre ++ v :: post)%list
        /\ Forall (fun s => declares_other s = true) pre
        /\ declares_video v = true).
Proof.
  revert v. induction streams as [|s l IH]; intros v; simpl.
  - intros [= <-]. left. split; [reflexivity|constructor].
  - destruct s as [| | | | |l'|m]; res_simpl; try discriminate.
    destruct (m !! "codec_type") as [t|] eqn:E; simpl; try discriminate.
    destruct (Py.eq_str t "video") eqn:Et.
    + intros [= <-]. right. exists [], l. simpl. rewrite E.
      repeat split; [constructor|exact Et].
    + intros H. assert (Ho : declares_other (JObj m) = true)
        by (simpl; rewrite E, Et; reflexivity).
      destruct (IH _ H) as [[-> Hall]|(pre & post & -> & Hpre & Hv)].
      * left. split; [reflexivity|]. constructor; assumption.
      * right. exists (JObj m :: pre), post.
        repeat split; [constructor; assumption|exact Hv].
Qed.

(** The body of the prober once a video stream [vs] has been selected. *)
Lemma metadata_of_probe_selected probe vs :
  video_stream_of probe = Ok (JObj vs) ->
  declares_video (JObj vs) = true ->
  metadata_of_probe probe =
    (width ← Py.int (default (JInt 0) (vs !! "width"));
     height ← Py.int (default (JInt 0) (vs !! "height"));
     duration ← (Py.getitem probe "format" ≫= fun fmt => Py.getitem fmt "duration")
                  ≫= Py.float;
     framerate ← framerate_of (JObj vs);
     Ok {| codec := default (JStr "unknown") (vs !! "codec_name");
           width := width; height := height;
           duration := duration; framerate := framerate |}).
Proof.
  intros Hsel Hv. unfold metadata_of_probe. rewrite Hsel.
  change (Ok (JObj vs) ≫= ?f) with (f (JObj vs)). cbv beta.
  rewrite (declares_video_truthy _ Hv). reflexivity.
Qed.

Lemma video_stream_of_Ok probe v :
  video_stream_of probe = Ok v ->
  v = JNull \/ declares_video v = true.
Proof.
  unfold video_stream_of. res_simpl.
  destruct (Py.getitem probe "streams") as [streams|]; [|discriminate].
  destruct (Py.iter streams) as [items|]; [|discriminate].
  intros [[-> _]|(pre & post & _ & _ & Hv)]%next_video_stream_Ok; auto.
Qed.

(** Every record the prober produces comes from a selected video stream
    and is assembled field by field from it and from the format. *)
Lemma metadata_of_probe_Ok probe meta :
  metadata_of_probe probe = Ok meta ->
  exists vs,
    video_stream_of probe = Ok (JObj vs)
    /\ declares_video (JObj vs) = true
    /\ codec meta = default (JStr "unknown") (vs !! "codec_name")
    /\ Py.int (default (JInt 0) (vs !! "width")) = Ok (width meta)
    /\ Py.int (default (JInt 0) (vs !! "height")) = Ok (height meta)
    /\ (Py.getitem probe "format" ≫= fun fmt => Py.getitem fmt "duration")
         ≫= Py.float = Ok (duration meta)
    /\ framerate_of (JObj vs) = Ok (framerate meta).
Proof.
  intros H.
  destruct (video_stream_of probe) as [v|e] eqn:Hsel;
    [|unfold metadata_of_probe in H; rewrite Hsel in H; discriminate].
  destruct (video_stream_of_Ok _ _ Hsel) as [->|Hv].
  { unfold metadata_of_probe in H. rewrite Hsel in H. discriminate. }
  destruct (declares_video_inv _ Hv) as (vs & -> & _).
  rewrite (metadata_of_probe_selected _ _ Hsel Hv) in H.
  exists vs. res_simpl.
  destruct (Py.int (default (JInt 0) (vs !! "width"))) as [wd|]; [|discriminate].
  destruct (Py.int (default (JInt 0) (vs !! "height"))) as [ht|]; [|discriminate].
  destruct (match Py.getitem probe "format" with Ok a => _ | Err e => _ end)
    as [dv|]; [|discriminate].
  destruct (Py.float dv) as [d|]; [|discriminate].
  destruct (framerate_of (JObj vs)) as [fr|]; [|discriminate].
  injection H as <-. simpl. repeat split; assumption || reflexivity.
Qed.

End ProberFacts.

(* ===================================================================== *)
(** ** Facts about the locator and the handlers *)
(* ===================================================================== *)

Section HandlerFacts.

Context (w : World).

Lemma get_video_path_falsy (video_id : option string) :
  str_truthy video_id = false ->
  get_video_path w video_id = mkM [] (Ok (Some VIDEO_PATH)).
Proof. intros H. unfold get_video_path. rewrite H. reflexivity. Qed.

Lemma get_video_path_truthy (video_id : option string) :
  str_truthy video_id = true ->
  get_video_path w video_id =
    mkM [EvExists (cache_path video_id)]
        (Ok (if os_path_exists w (cache_path video_id)
             then Some (cache_path video_id) else None)).
Proof.
  intros H. unfold get_video_path. rewrite H. res_simpl.
  destruct (os_path_exists w (cache_path video_id)); reflexivity.
Qed.

Lemma str_truthy_Some (video_id : string) :
  video_id <> "" -> str_truthy (Some video_id) = true.
Proof.
  intros H. simpl. apply negb_true_iff, String.eqb_neq, H.
Qed.

(** After the 404 guard the path is a string: the last case of
    [with_video_path] is never taken. *)
Lemma resolved_path_is_string (video_id : option string) :
  outcome (get_video_path w video_id) = Ok None -> str_truthy video_id = true.
Proof.
  destruct (str_truthy video_id) eqn:E; [reflexivity|].
  rewrite (get_video_path_falsy _ E). discriminate.
Qed.

Lemma get_video_metadata_unfold (path : string) :
  get_video_metadata w path =
    mkM [EvProbe path] (ffmpeg_probe w path ≫= metadata_of_probe).
Proof.
  unfold get_video_metadata, probe_io. res_simpl.
  destruct (ffmpeg_probe w path); simpl; reflexivity.
Qed.

(** An exception of the prober that is not a [ProbeError] passes through
    the [metadata] handler unhandled. *)
Lemma metadata_unhandled (request : Request) (path : string) (e : exn) :
  outcome (get_video_path w (args request !! "video_id")) = Ok (Some path) ->
  outcome (get_video_metadata w path) = Err e ->
  is_ProbeError e = false ->
  outcome (metadata w request) = Err e.
Proof.
  intros Hp He Hne. unfold metadata, with_video_path.
  destruct (get_video_path w (args request !! "video_id")) as [tr o].
  simpl in Hp. subst o. res_simpl.
  unfold try_except. rewrite He, Hne. reflexivity.
Qed.

End HandlerFacts.

(* ===================================================================== *)
(** ** The specification's claims *)
(* ===================================================================== *)

(** C1. Resource locator. An absent or empty identifier resolves to the
    default path in every world, without any filesystem call (the trace is
    empty). A non-empty identifier makes one existence check, of
    [static/cache/cached_{identifier}.mp4], and resolves to that path when
    the check succeeds and to [None] when it fails. *)
Theorem get_video_path_resolution (w : World) (video_id : string) :
  video_id <> "" ->
  get_video_path w None = mkM [] (Ok (Some "static/video.mp4"))
  /\ get_video_path w (Some "") = mkM [] (Ok (Some "static/video.mp4"))
  /\ get_video_path w (Some video_id) =
       mkM [EvExists ("static/cache/cached_" +:+ video_id +:+ ".mp4")]
           (Ok (if os_path_exists w ("static/cache/cached_" +:+ video_id +:+ ".mp4")
                then Some ("static/cache/cached_" +:+ video_id +:+ ".mp4")
                else None)).
Proof.
  intros Hne. repeat split.
  apply (get_video_path_truthy w (Some video_id)), str_truthy_Some, Hne.
Qed.

Lemma get_video_path_resolution_witness :
  outcome (get_video_path
             (Samples.world ["static/cache/cached_abc123.mp4"] (Err ValueError))
             (Some "abc123"))
    = Ok (Some "static/cache/cached_abc123.mp4")
  /\ outcome (get_video_path (Samples.world [] (Err ValueError)) (Some "abc123"))
    = Ok None.
Proof.
  split.
  - pose proof (get_video_path_resolution
                  (Samples.world ["static/cache/cached_abc123.mp4"] (Err ValueError))
                  "abc123" ltac:(discriminate)) as (_ & _ & H).
    rewrite H. reflexivity.
  - pose proof (get_video_path_resolution
                  (Samples.world [] (Err ValueError))
                  "abc123" ltac:(discriminate)) as (_ & _ & H).
    rewrite H. reflexivity.
Defined.

(** The prober returns the record assembled from the selected stream as
    soon as the two coercions, the duration and the frame rate succeed. *)
Lemma metadata_of_probe_returns (probe : json) (vs : gmap string json)
    (wd ht : Z) (d fr : spec_float) :
  video_stream_of probe = Ok (JObj vs) ->
  Py.int (default (JInt 0) (vs !! "width")) = Ok wd ->
  Py.int (default (JInt 0) (vs !! "height")) = Ok ht ->
  (Py.getitem probe "format" ≫= fun fmt => Py.getitem fmt "duration")
    ≫= Py.float = Ok d ->
  framerate_of (JObj vs) = Ok fr ->
  metadata_of_probe probe =
    Ok {| codec := default (JStr "unknown") (vs !! "codec_name");
          width := wd; height := ht; duration := d; framerate := fr |}.
Proof.
  intros Hsel Hw Hh Hd Hf.
  assert (Hv : declares_video (JObj vs) = true)
    by (destruct (video_stream_of_Ok _ _ Hsel) as [?|?]; [discriminate|assumption]).
  rewrite (metadata_of_probe_selected _ _ Hsel Hv), Hw, Hh.
  change (Ok wd ≫= ?f) with (f wd). cbv beta.
  change (Ok ht ≫= ?f) with (f ht). cbv beta.
  rewrite Hd, Hf. reflexivity.
Qed.

(** The frame rate of a stream whose [r_frame_rate] (or its default) splits
    into [num] and [den], with a denominator that [float] can parse. *)
Lemma framerate_of_split (vs : gmap string json) (s num den : string)
    (d : spec_float) :
  default (JStr "0/0") (vs !! "r_frame_rate") = JStr s ->
  PyStr.split "/" s = [num; den] ->
  PyStr.parse_float den = Some d ->
  framerate_of (JObj vs) =
    if Float64.eqb d Float64.zero then Ok Float64.zero
    else n ← Py.float_str num; Ok (Float64.div n d).
Proof.
  intros Hr Hs Hd. unfold framerate_of, Py.get, Py.float_str.
  res_simpl. rewrite Hr. simpl. rewrite Hs. simpl. rewrite Hd. simpl.
  destruct (Float64.eqb d Float64.zero) eqn:E; simpl; [reflexivity|].
  destruct (PyStr.parse_float num) as [n|]; simpl; [|reflexivity].
  unfold Py.truediv. rewrite E. reflexivity.
Qed.

(** C2. Frame-rate parsing. When the selected stream's [r_frame_rate]
    field, or the default ["0/0"] that replaces an absent field, has the
    form [num/den] with [num] and [den] readable as floats, the frame rate
    is [num / den] in binary64 arithmetic, except that a denominator equal
    to zero gives 0.0 instead of a division fault; and the prober returns
    the record with this frame rate whenever the width, the height and the
    duration can be read, [get_video_metadata] after its one inspection
    call. An absent field gives 0.0. On ffprobe's answer for a ten second
    640x480 file the prober returns frame rate 30.0 for ["30/1"], 0.0 for
    ["0/0"], and for ["25000/1001"] the float nearest to 25000/1001, which
    lies within 0.0005 of 24.975. Every record the prober returns carries
    the frame rate computed this way from the selected stream. *)
Theorem framerate_parsing :
  (forall (vs : gmap string json) (num den : string) (n d : spec_float),
      default (JStr "0/0") (vs !! "r_frame_rate") = JStr (num +:+ "/" +:+ den) ->
      PyStr.contains "/" num = false -> PyStr.contains "/" den = false ->
      PyStr.parse_float num = Some n -> PyStr.parse_float den = Some d ->
      framerate_of (JObj vs) =
        Ok (if Float64.eqb d Float64.zero then Float64.zero else Float64.div n d))
  /\ (forall (w : World) (video_path : string) (probe : json)
             (vs : gmap string json) (num den : string) (n d : spec_float)
             (wd ht : Z) (dur : spec_float),
        ffmpeg_probe w video_path = Ok probe ->
        video_stream_of probe = Ok (JObj vs) ->
        default (JStr "0/0") (vs !! "r_frame_rate") = JStr (num +:+ "/" +:+ den) ->
        PyStr.contains "/" num = false -> PyStr.contains "/" den = false ->
        PyStr.parse_float num = Some n -> PyStr.parse_float den = Some d ->
        Py.int (default (JInt 0) (vs !! "width")) = Ok wd ->
        Py.int (default (JInt 0) (vs !! "height")) = Ok ht ->
        (Py.getitem probe "format" ≫= fun fmt => Py.getitem fmt "duration")
          ≫= Py.float = Ok dur ->
        get_video_metadata w video_path =
          mkM [EvProbe video_path]
              (Ok {| codec := default (JStr "unknown") (vs !! "codec_name");
                     width := wd; height := ht; duration := dur;
                     framerate := if Float64.eqb d Float64.zero then Float64.zero
                                  else Float64.div n d |}))
  /\ (forall vs : gmap string json,
        vs !! "r_frame_rate" = None -> framerate_of (JObj vs) = Ok Float64.zero)
  /\ framerate_of (JObj (Samples.video_stream "30/1")) = Ok (Float64.of_Z 30)
  /\ framerate_of (JObj (Samples.video_stream "0/0")) = Ok Float64.zero
  /\ (exists f, framerate_of (JObj (Samples.video_stream "25000/1001")) = Ok f
        /\ f = Float64.div (Float64.of_Z 25000) (Float64.of_Z 1001)
        /\ Float64.within (249745 # 10000) (249755 # 10000) f)
  /\ metadata_of_probe (Samples.probe_of "30/1") =
       Ok {| codec := JStr "h264"; width := 640; height := 480;
             duration := Float64.of_Z 10; framerate := Float64.of_Z 30 |}
  /\ metadata_of_probe (Samples.probe_of "0/0") =
       Ok {| codec := JStr "h264"; width := 640; height := 480;
             duration := Float64.of_Z 10; framerate := Float64.zero |}
  /\ metadata_of_probe (Samples.probe_of "25000/1001") =
       Ok {| codec := JStr "h264"; width := 640; height := 480;
             duration := Float64.of_Z 10;
             framerate := Float64.div (Float64.of_Z 25000) (Float64.of_Z 1001) |}
  /\ (forall probe meta, metadata_of_probe probe = Ok meta ->
        exists vs, video_stream_of probe = Ok (JObj vs)
                   /\ framerate_of (JObj vs) = Ok (framerate meta)).
Proof.
  assert (Hrate : forall (vs : gmap string json) (num den : string)
                         (n d : spec_float),
    default (JStr "0/0") (vs !! "r_frame_rate") = JStr (num +:+ "/" +:+ den) ->
    PyStr.contains "/" num = false -> PyStr.contains "/" den = false ->
    PyStr.parse_float num = Some n -> PyStr.parse_float den = Some d ->
    framerate_of (JObj vs) =
      Ok (if Float64.eqb d Float64.zero then Float64.zero else Float64.div n d)).
  { intros vs num den n d Hr Hn Hd Pn Pd.
    rewrite (framerate_of_split vs _ num den d Hr
               (PyStrFacts.split_pair _ _ Hn Hd) Pd).
    unfold Py.float_str. rewrite Pn. simpl.
    destruct (Float64.eqb d Float64.zero); reflexivity. }
  repeat apply conj.
  - exact Hrate.
  - intros w video_path probe vs num den n d wd ht dur
           Hp Hsel Hr Hn Hd Pn Pd Hw Hh Hdur.
    rewrite get_video_metadata_unfold, Hp.
    change (Ok probe ≫= metadata_of_probe) with (metadata_of_probe probe).
    rewrite (metadata_of_probe_returns probe vs wd ht dur _ Hsel Hw Hh Hdur
               (Hrate vs num den n d Hr Hn Hd Pn Pd)).
    reflexivity.
  - intros vs Hnone.
    rewrite (framerate_of_split vs "0/0" "0" "0" Float64.zero);
      [reflexivity| rewrite Hnone; reflexivity | reflexivity | reflexivity].
  - vm_compute. reflexivity.
  - vm_compute. reflexivity.
  - eexists. split; [vm_compute; reflexivity|]. split; [vm_compute; reflexivity|].
    unfold Float64.within. simpl. split; unfold Qle; simpl; lia.
  - vm_compute. reflexivity.
  - vm_compute. reflexivity.
  - vm_compute. reflexivity.
  - intros probe meta (vs & Hsel & _ & _ & _ & _ & _ & Hfr)%metadata_of_probe_Ok.
    exists vs. split; assumption.
Qed.

Lemma framerate_parsing_witness :
  framerate_of (JObj (Samples.video_stream "24/1")) = Ok (Float64.of_Z 24)
  /\ framerate_of (JObj (Samples.video_stream "24/0")) = Ok Float64.zero
  /\ get_video_metadata (Samples.world [] (Ok (Samples.probe_of "24000/1001")))
                        "static/video.mp4"
     = mkM [EvProbe "static/video.mp4"]
           (Ok {| codec := JStr "h264"; width := 640; height := 480;
                  duration := Float64.of_Z 10;
                  framerate := Float64.div (Float64.of_Z 24000) (Float64.of_Z 1001) |}).
Proof.
  repeat apply conj.
  - rewrite (proj1 framerate_parsing (Samples.video_stream "24/1") "24" "1"
               (Float64.of_Z 24) (Float64.of_Z 1));
      vm_compute; reflexivity.
  - rewrite (proj1 framerate_parsing (Samples.video_stream "24/0") "24" "0"
               (Float64.of_Z 24) Float64.zero);
      vm_compute; reflexivity.
  - rewrite (proj1 (proj2 framerate_parsing)
               (Samples.world [] (Ok (Samples.probe_of "24000/1001")))
               "static/video.mp4" (Samples.probe_of "24000/1001")
               (Samples.video_stream "24000/1001") "24000" "1001"
               (Float64.of_Z 24000) (Float64.of_Z 1001) 640 480 (Float64.of_Z 10));
      vm_compute; reflexivity.
Defined.

(** C6. Stream fields. Once a video stream has been selected, every record
    the prober returns has as codec the stream's [codec_name], or
    ['unknown'] when the stream has none, and as width and height the
    result of [int] on the stream's [width] and [height], or 0 when the
    field is absent; an integer value is taken as it is. Conversely the
    prober does return that record whenever the two coercions, the duration
    and the frame rate succeed. *)
Theorem stream_fields (probe : json) (vs : gmap string json) :
  video_stream_of probe = Ok (JObj vs) ->
  (forall meta, metadata_of_probe probe = Ok meta ->
      codec meta = default (JStr "unknown") (vs !! "codec_name")
      /\ Py.int (default (JInt 0) (vs !! "width")) = Ok (width meta)
      /\ Py.int (default (JInt 0) (vs !! "height")) = Ok (height meta)
      /\ (vs !! "codec_name" = None -> codec meta = JStr "unknown")
      /\ (vs !! "width" = None -> width meta = 0)
      /\ (vs !! "height" = None -> height meta = 0)
      /\ (forall z, vs !! "width" = Some (JInt z) -> width meta = z)
      /\ (forall z, vs !! "height" = Some (JInt z) -> height meta = z))
  /\ (forall wd ht d fr,
        Py.int (default (JInt 0) (vs !! "width")) = Ok wd ->
        Py.int (default (JInt 0) (vs !! "height")) = Ok ht ->
        (Py.getitem probe "format" ≫= fun fmt => Py.getitem fmt "duration")
          ≫= Py.float = Ok d ->
        framerate_of (JObj vs) = Ok fr ->
        metadata_of_probe probe =
          Ok {| codec := default (JStr "unknown") (vs !! "codec_name");
                width := wd; height := ht; duration := d; framerate := fr |}).
Proof.
  intros Hsel.
  assert (Hv : declares_video (JObj vs) = true)
    by (destruct (video_stream_of_Ok _ _ Hsel) as [?|?]; [discriminate|assumption]).
  split.
  - intros meta (vs' & Hsel' & _ & Hc & Hw & Hh & _)%metadata_of_probe_Ok.
    rewrite Hsel in Hsel'. injection Hsel' as <-.
    repeat split; try assumption.
    + intros E. rewrite Hc, E. reflexivity.
    + intros E. rewrite E in Hw. simpl in Hw. congruence.
    + intros E. rewrite E in Hh. simpl in Hh. congruence.
    + intros z E. rewrite E in Hw. simpl in Hw. congruence.
    + intros z E. rewrite E in Hh. simpl in Hh. congruence.
  - intros wd ht d fr Hw Hh Hd Hf.
    rewrite (metadata_of_probe_selected _ _ Hsel Hv), Hw, Hh.
    change (Ok wd ≫= ?f) with (f wd). cbv beta.
    change (Ok ht ≫= ?f) with (f ht). cbv beta.
    rewrite Hd, Hf. reflexivity.
Qed.

Lemma stream_fields_witness :
  metadata_of_probe (Samples.probe_of "30/1") =
    Ok {| codec := JStr "h264"; width := 640; height := 480;
          duration := Float64.of_Z 10; framerate := Float64.of_Z 30 |}.
Proof.
  rewrite (proj2 (stream_fields (Samples.probe_of "30/1")
                    (Samples.video_stream "30/1") eq_refl)
             640 480 (Float64.of_Z 10) (Float64.of_Z 30));
    vm_compute; reflexivity.
Defined.

(** C8. Idempotence. The prober's result, trace included, is a function of
    what the inspection call returns for the path: whenever two calls see
    the same inspection result, the world being otherwise arbitrary, they
    produce the same record or the same exception. *)
Theorem probing_deterministic (w1 w2 : World) (video_path : string) :
  ffmpeg_probe w1 video_path = ffmpeg_probe w2 video_path ->
  get_video_metadata w1 video_path = get_video_metadata w2 video_path.
Proof.
  intros H. rewrite !get_video_metadata_unfold, H. reflexivity.
Qed.

Lemma probing_deterministic_witness :
  get_video_metadata (Samples.world [] (Ok (Samples.probe_of "30/1")))
                     "static/video.mp4"
  = get_video_metadata
      (Samples.world ["static/cache/cached_abc123.mp4"] (Ok (Samples.probe_of "30/1")))
      "static/video.mp4".
Proof.
  apply (probing_deterministic
           (Samples.world [] (Ok (Samples.probe_of "30/1")))
           (Samples.world ["static/cache/cached_abc123.mp4"]
                          (Ok (Samples.probe_of "30/1")))
           "static/video.mp4").
  reflexivity.
Defined.

Lemma SFcompare_refl (x : spec_float) :
  Float64.is_nan x = false -> SFcompare x x = Some Eq.
Proof.
  destruct x as [s|s| |s m e]; simpl; try discriminate; intros _;
    try (destruct s; reflexivity).
  destruct s; rewrite Z.compare_refl, Pos.compare_cont_refl; reflexivity.
Qed.

Lemma in_bounds_not_out (t d : spec_float) :
  in_bounds t d = true -> out_of_bounds t d = false.
Proof.
  unfold in_bounds, out_of_bounds.
  intros [H0 Hd]%andb_true_iff. apply orb_false_iff.
  assert (Float64.is_nan t = false) by (destruct t; try reflexivity; discriminate).
  assert (Float64.is_nan d = false)
    by (destruct d; try reflexivity; rewrite Float64Facts.leb_nan_r in Hd; discriminate).
  split; apply Float64Facts.ltb_false_leb; auto.
Qed.

Lemma not_out_in_bounds (t d : spec_float) :
  Float64.is_nan t = false -> Float64.is_nan d = false ->
  out_of_bounds t d = false -> in_bounds t d = true.
Proof.
  unfold in_bounds, out_of_bounds.
  intros Ht Hd [H0 H1]%orb_false_iff. apply andb_true_iff.
  split; apply Float64Facts.ltb_false_leb; auto.
Qed.

(** Where an event of a composed computation comes from. *)
Lemma elem_of_trace_bind {A B} (m : M A) (f : A -> M B) (ev : event) :
  ev ∈ trace (m ≫= f) ->
  ev ∈ trace m \/ exists a, outcome m = Ok a /\ ev ∈ trace (f a).
Proof.
  unfold mbind, M_bind. destruct (outcome m) as [a|e]; simpl.
  - intros [H|H]%elem_of_app; eauto.
  - auto.
Qed.

Lemma elem_of_trace_try_except {A B} (m : M A) (caught : exn -> bool)
    (handler : exn -> M B) (k : A -> M B) (ev : event) :
  ev ∈ trace (try_except m caught handler k) ->
  ev ∈ trace m
  \/ (exists a, outcome m = Ok a /\ ev ∈ trace (k a))
  \/ (exists e, outcome m = Err e /\ caught e = true /\ ev ∈ trace (handler e)).
Proof.
  unfold try_except. destruct (outcome m) as [a|e]; simpl.
  - intros [H|H]%elem_of_app; eauto.
  - destruct (caught e) eqn:E; simpl; [|auto].
    intros [H|H]%elem_of_app; eauto 6.
Qed.

Lemma not_elem_of_trace_mret {A} (a : A) (ev : event) : ev ∉ trace (mret a : M A).
Proof. apply not_elem_of_nil. Qed.

Lemma elem_of_trace_get_video_path (w : World) (video_id : option string)
    (ev : event) :
  ev ∈ trace (get_video_path w video_id) -> is_EvExists ev = true.
Proof.
  destruct (str_truthy video_id) eqn:E.
  - rewrite (get_video_path_truthy w _ E). simpl.
    intros [->|[]%elem_of_nil]%elem_of_cons. reflexivity.
  - rewrite (get_video_path_falsy w _ E). simpl. intros []%elem_of_nil.
Qed.

Lemma elem_of_trace_extract_frame (w : World) (video_path path : string)
    (ts t d : spec_float) :
  EvRun path t ∈ trace (extract_frame w video_path ts d) ->
  path = video_path /\ t = ts /\ out_of_bounds ts d = false.
Proof.
  unfold extract_frame. destruct (out_of_bounds ts d).
  - intros []%not_elem_of_trace_mret.
  - intros [H|[(a & _ & []%not_elem_of_trace_mret)
              |(e & _ & _ & []%not_elem_of_trace_mret)]]%elem_of_trace_try_except.
    simpl in H. apply elem_of_cons in H as [[= -> ->]|[]%elem_of_nil]. auto.
Qed.

(** The extraction is only ever run on a resolved path, with the parsed
    timestamp, after the prober returned a record whose duration the
    timestamp passes the test of line 104 against. *)
Lemma thumbnail_run_guarded (w : World) (request : Request)
    (path : string) (t : spec_float) :
  EvRun path t ∈ trace (thumbnail w request) ->
  exists meta,
    args request !! "timestamp" ≫= PyStr.parse_float = Some t
    /\ outcome (get_video_path w (args request !! "video_id")) = Ok (Some path)
    /\ outcome (get_video_metadata w path) = Ok meta
    /\ out_of_bounds t (duration meta) = false.
Proof.
  unfold thumbnail.
  destruct (args request !! "timestamp" ≫= PyStr.parse_float) as [ts|];
    [|intros []%not_elem_of_trace_mret].
  unfold with_video_path.
  intros [H|(video_path & Hp & H)]%elem_of_trace_bind.
  { apply elem_of_trace_get_video_path in H. discriminate. }
  destruct video_path as [vp|].
  - apply elem_of_trace_try_except in H
      as [H|[(meta & Hm & H)|(e & _ & _ & []%not_elem_of_trace_mret)]].
    + rewrite get_video_metadata_unfold in H. simpl in H.
      apply elem_of_cons in H as [[=]|[]%elem_of_nil].
    + apply elem_of_trace_extract_frame in H as (-> & -> & Hb).
      exists meta. auto.
  - destruct (str_truthy (args request !! "video_id"));
      [apply not_elem_of_trace_mret in H as []|].
    simpl in H. apply elem_of_nil in H as [].
Qed.

(** C3. The bounds check of [thumbnail] misses NaN. The claim has the
    snapshot step accept exactly the timestamps with [0 <= t <= D], and the
    handler's docstring has an out-of-bounds timestamp answered with an
    error. The request [/thumbnail?timestamp=nan] parses ([float('nan')]);
    NaN is not within [0 <= t <= 10], yet neither [t < 0] nor [t > 10] of
    line 104 holds for it, so the request is not rejected and the
    extraction is run with [ss = nan]. *)
Lemma nan_timestamp_accepted :
  PyStr.parse_float "nan" = Some Float64.nan
  /\ in_bounds Float64.nan (Float64.of_Z 10) = false
  /\ thumbnail (Samples.world [] (Ok (Samples.probe_of "30/1")))
               (Samples.request [("timestamp", "nan")])
     = mkM [EvProbe "static/video.mp4"; EvRun "static/video.mp4" Float64.nan]
           (Ok (Data "PNG" "image/png")).
Proof. repeat split; vm_compute; reflexivity. Qed.

(** X17. What line 104 decides. The snapshot step rejects exactly the
    timestamps with [t < 0] or [t > D]: the answer is then the 400 response
    and nothing is run (empty trace). Every other timestamp is passed to
    the extraction, once. For a timestamp and a duration that are numbers
    this accepts exactly [0 <= t <= D], the boundary [t = D] included;
    every timestamp within [0 <= t <= D] is accepted; a NaN timestamp, and
    any [t >= 0] against a NaN duration, pass the two comparisons as well.
    In the [thumbnail] handler the extraction is run only with the parsed
    timestamp, on the resolved path, after it passed this test against the
    probed duration. *)
Theorem extract_frame_bounds (w : World) (video_path : string)
    (t d : spec_float) :
  (out_of_bounds t d = true <->
     (Float64.ltb t Float64.zero = true \/ Float64.ltb d t = true))
  /\ (out_of_bounds t d = true ->
        extract_frame w video_path t d =
          mkM [] (Ok (JsonError 400 "Timestamp out of video duration bounds")))
  /\ (out_of_bounds t d = false ->
        trace (extract_frame w video_path t d) = [EvRun video_path t])
  /\ (in_bounds t d = true -> out_of_bounds t d = false)
  /\ (Float64.is_nan t = false -> Float64.is_nan d = false ->
        (out_of_bounds t d = false <-> in_bounds t d = true))
  /\ (Float64.is_nan d = false -> Float64.nonneg d = true ->
        out_of_bounds d d = false)
  /\ out_of_bounds Float64.nan d = false
  /\ (Float64.nonneg t = true -> out_of_bounds t Float64.nan = false)
  /\ (forall request path ts,
        EvRun path ts ∈ trace (thumbnail w request) ->
        exists meta,
          args request !! "timestamp" ≫= PyStr.parse_float = Some ts
          /\ outcome (get_video_path w (args request !! "video_id")) = Ok (Some path)
          /\ outcome (get_video_metadata w path) = Ok meta
          /\ out_of_bounds ts (duration meta) = false).
Proof.
  repeat apply conj.
  - unfold out_of_bounds. apply orb_true_iff.
  - apply orb_true_iff.
  - intros H. unfold extract_frame. rewrite H. reflexivity.
  - intros H. unfold extract_frame, try_except. rewrite H. simpl.
    destruct (ffmpeg_run w video_path t) as [out|e]; simpl; [reflexivity|].
    destruct (run_caught e); reflexivity.
  - apply in_bounds_not_out.
  - intros Ht Hd. split; [apply not_out_in_bounds; assumption|].
    apply in_bounds_not_out.
  - intros Hd H0. apply in_bounds_not_out. unfold in_bounds.
    change (Float64.leb Float64.zero d) with (Float64.nonneg d). rewrite H0.
    unfold Float64.leb, SFleb. rewrite (SFcompare_refl d Hd). reflexivity.
  - unfold out_of_bounds. rewrite Float64Facts.ltb_nan_l, Float64Facts.ltb_nan_r.
    reflexivity.
  - intros H0. unfold out_of_bounds. rewrite Float64Facts.ltb_nan_l, orb_false_r.
    apply Float64Facts.ltb_false_leb; [|reflexivity|exact H0].
    destruct t; try reflexivity. discriminate.
  - apply thumbnail_run_guarded.
Qed.

Lemma extract_frame_bounds_witness :
  extract_frame (Samples.world [] (Ok (Samples.probe_of "30/1")))
                "static/video.mp4" (Float64.of_Z 15) (Float64.of_Z 10)
  = mkM [] (Ok (JsonError 400 "Timestamp out of video duration bounds"))
  /\ trace (extract_frame (Samples.world [] (Ok (Samples.probe_of "30/1")))
                          "static/video.mp4" (Float64.of_Z 10) (Float64.of_Z 10))
     = [EvRun "static/video.mp4" (Float64.of_Z 10)].
Proof.
  split.
  - apply (extract_frame_bounds (Samples.world [] (Ok (Samples.probe_of "30/1")))
             "static/video.mp4" (Float64.of_Z 15) (Float64.of_Z 10)).
    reflexivity.
  - apply (extract_frame_bounds (Samples.world [] (Ok (Samples.probe_of "30/1")))
             "static/video.mp4" (Float64.of_Z 10) (Float64.of_Z 10)).
    reflexivity.
Defined.

(** C4, as stated, fails on a stream descriptor that declares no codec
    type (ffprobe's JSON leaves the field out for a stream of unknown
    type). With such a descriptor as the only stream, no stream has codec
    type ['video'], yet the prober fails with [KeyError], not with
    [ProbeError]; with a video stream after it, the video stream is not
    selected either. *)
Lemma undeclared_codec_type_KeyError :
  forallb (fun s => negb (declares_video s)) [Samples.obj [("index", JInt 0)]] = true
  /\ metadata_of_probe
       (Samples.obj [("streams", JList [Samples.obj [("index", JInt 0)]]);
                     ("format", Samples.obj [("duration", JStr "10.000000")])])
     = Err (KeyError "codec_type")
  /\ metadata_of_probe
       (Samples.obj [("streams", JList [Samples.obj [("index", JInt 0)];
                                        JObj (Samples.video_stream "30/1")]);
                     ("format", Samples.obj [("duration", JStr "10.000000")])])
     = Err (KeyError "codec_type").
Proof. repeat split; vm_compute; reflexivity. Qed.

(** C4, amended. Among stream descriptors that each declare a codec type,
    the prober selects the first one, in order, whose codec type is
    ['video'], and when every descriptor declares a codec type other than
    ['video'] it fails with [ProbeError('No video stream found')]. A
    descriptor without a codec type that is reached before any video stream
    ends the search with [KeyError('codec_type')]. A failure of the
    inspection call itself is raised unchanged, so [ffmpeg.Error] comes out
    as [ffmpeg.Error], which is not a [ProbeError]. *)
Theorem video_stream_selection (w : World) (video_path : string)
    (probe : json) (pre post : list json) :
  Py.getitem probe "streams" = Ok (JList (pre ++ post)) ->
  Forall (fun s => declares_other s = true) pre ->
  (forall stream rest, post = stream :: rest -> declares_video stream = true ->
     video_stream_of probe = Ok stream)
  /\ (post = [] ->
        metadata_of_probe probe = Err (ProbeError "No video stream found")
        /\ (ffmpeg_probe w video_path = Ok probe ->
              get_video_metadata w video_path =
                mkM [EvProbe video_path] (Err (ProbeError "No video stream found"))))
  /\ (forall vs rest, post = JObj vs :: rest -> vs !! "codec_type" = None ->
        metadata_of_probe probe = Err (KeyError "codec_type"))
  /\ (forall e, ffmpeg_probe w video_path = Err e ->
        get_video_metadata w video_path = mkM [EvProbe video_path] (Err e))
  /\ (forall stderr, ffmpeg_probe w video_path = Err (FfmpegError stderr) ->
        outcome (get_video_metadata w video_path) = Err (FfmpegError stderr)
        /\ is_ProbeError (FfmpegError stderr) = false).
Proof.
  intros Hs Hpre.
  assert (Hsel : video_stream_of probe = next_video_stream (pre ++ post)).
  { unfold video_stream_of. rewrite Hs. reflexivity. }
  split; [|split; [|split; [|split]]].
  - intros stream rest -> Hv. rewrite Hsel.
    apply next_video_stream_first; assumption.
  - intros ->. rewrite app_nil_r in Hsel.
    assert (Hm : metadata_of_probe probe = Err (ProbeError "No video stream found")).
    { unfold metadata_of_probe.
      rewrite Hsel, (next_video_stream_none _ Hpre). reflexivity. }
    split; [exact Hm|]. intros Hp.
    rewrite get_video_metadata_unfold, Hp. simpl.
    change (Ok probe ≫= metadata_of_probe) with (metadata_of_probe probe).
    rewrite Hm. reflexivity.
  - intros vs rest -> Hnone. unfold metadata_of_probe.
    rewrite Hsel, (next_video_stream_undeclared _ _ _ Hpre Hnone). reflexivity.
  - intros e He. rewrite get_video_metadata_unfold, He. reflexivity.
  - intros stderr He. rewrite get_video_metadata_unfold, He. split; reflexivity.
Qed.

Lemma video_stream_selection_witness :
  video_stream_of (Samples.probe_of "30/1") = Ok (JObj (Samples.video_stream "30/1"))
  /\ metadata_of_probe (Samples.obj [("streams", JList [Samples.audio_stream])])
     = Err (ProbeError "No video stream found").
Proof.
  split.
  - pose proof (video_stream_selection
                  (Samples.world [] (Err (FfmpegError "")))
                  "static/video.mp4" (Samples.probe_of "30/1")
                  [Samples.audio_stream] [JObj (Samples.video_stream "30/1")]
                  eq_refl ltac:(repeat constructor)) as (H & _).
    apply (H _ [] eq_refl). reflexivity.
  - pose proof (video_stream_selection
                  (Samples.world [] (Err (FfmpegError "")))
                  "static/video.mp4"
                  (Samples.obj [("streams", JList [Samples.audio_stream])])
                  [Samples.audio_stream] []
                  eq_refl ltac:(repeat constructor)) as (_ & H & _).
    apply (H eq_refl).
Defined.

(** The built-in conversions never raise [ProbeError]. *)
Lemma int_not_ProbeError (v : json) (e : exn) :
  Py.int v = Err e -> is_ProbeError e = false.
Proof.
  destruct v as [| | |f|s| |]; simpl; try (intros [= <-]; reflexivity).
  - destruct (Float64.is_nan f); [intros [= <-]; reflexivity|].
    destruct (Float64.trunc f); simpl; intros [= <-]; reflexivity.
  - destruct (PyStr.parse_int s); simpl; intros [= <-]; reflexivity.
Qed.

Lemma float_not_ProbeError (v : json) (e : exn) :
  Py.float v = Err e -> is_ProbeError e = false.
Proof.
  destruct v as [| |z| |s| |]; simpl; try (intros [= <-]; reflexivity).
  - destruct (Float64.is_inf _); intros [= <-]; reflexivity.
  - destruct (PyStr.parse_float s); simpl; intros [= <-]; reflexivity.
Qed.

(** C5, as stated, fails: for a probe result with a video stream and a
    format without duration the prober raises [KeyError('duration')], which
    is not a [ProbeError]. *)
Lemma missing_duration_KeyError :
  video_stream_of Samples.probe_without_duration
    = Ok (JObj (Samples.video_stream "30/1"))
  /\ Py.getitem Samples.probe_without_duration "format"
     = Ok (JObj Samples.format_without_duration)
  /\ Samples.format_without_duration !! "duration" = None
  /\ metadata_of_probe Samples.probe_without_duration = Err (KeyError "duration")
  /\ is_ProbeError (KeyError "duration") = false.
Proof. repeat split; vm_compute; reflexivity. Qed.

(** C5, amended. For every probe result that contains a video stream but
    whose format-level fields lack a duration entry, the prober fails with
    an exception that is not a [ProbeError]: with [KeyError('duration')]
    when the width and height coercions succeed, and otherwise with the
    exception of the failed coercion, that of the width if it fails, else
    that of the height. The [metadata] handler, which catches [ProbeError]
    only, lets it through. *)
Theorem missing_duration_not_ProbeError (probe : json)
    (vs fmt : gmap string json) :
  video_stream_of probe = Ok (JObj vs) ->
  Py.getitem probe "format" = Ok (JObj fmt) ->
  fmt !! "duration" = None ->
  (exists e, metadata_of_probe probe = Err e /\ is_ProbeError e = false)
  /\ (forall wd ht,
        Py.int (default (JInt 0) (vs !! "width")) = Ok wd ->
        Py.int (default (JInt 0) (vs !! "height")) = Ok ht ->
        metadata_of_probe probe = Err (KeyError "duration"))
  /\ (forall e,
        Py.int (default (JInt 0) (vs !! "width")) = Err e ->
        metadata_of_probe probe = Err e)
  /\ (forall wd e,
        Py.int (default (JInt 0) (vs !! "width")) = Ok wd ->
        Py.int (default (JInt 0) (vs !! "height")) = Err e ->
        metadata_of_probe probe = Err e)
  /\ (forall (w : World) (request : Request) (path : string),
        outcome (get_video_path w (args request !! "video_id")) = Ok (Some path) ->
        ffmpeg_probe w path = Ok probe ->
        exists e, outcome (metadata w request) = Err e /\ is_ProbeError e = false).
Proof.
  intros Hsel Hfmt Hdur.
  assert (Hv : declares_video (JObj vs) = true)
    by (destruct (video_stream_of_Ok _ _ Hsel) as [?|?]; [discriminate|assumption]).
  pose proof (metadata_of_probe_selected _ _ Hsel Hv) as Hm.
  rewrite Hfmt in Hm. simpl in Hm. res_simpl. rewrite Hdur in Hm.
  assert (Hex : exists e, metadata_of_probe probe = Err e /\ is_ProbeError e = false).
  { rewrite Hm.
    destruct (Py.int (default (JInt 0) (vs !! "width"))) as [wd|e] eqn:Ew;
      [|exists e; split; [reflexivity|exact (int_not_ProbeError _ _ Ew)]].
    destruct (Py.int (default (JInt 0) (vs !! "height"))) as [ht|e] eqn:Eh;
      [|exists e; split; [reflexivity|exact (int_not_ProbeError _ _ Eh)]].
    exists (KeyError "duration"). split; reflexivity. }
  split; [exact Hex|]. split; [|split; [|split]].
  - intros wd ht Hw Hh. rewrite Hm, Hw, Hh. reflexivity.
  - intros e Hw. rewrite Hm, Hw. reflexivity.
  - intros wd e Hw Hh. rewrite Hm, Hw, Hh. reflexivity.
  - intros w request path Hp Hprobe. destruct Hex as (e & He & Hne).
    exists e. split; [|exact Hne].
    apply (metadata_unhandled w request path e Hp); [|exact Hne].
    rewrite get_video_metadata_unfold, Hprobe. exact He.
Qed.

Lemma missing_duration_not_ProbeError_witness :
  metadata_of_probe Samples.probe_without_duration = Err (KeyError "duration").
Proof.
  pose proof (missing_duration_not_ProbeError Samples.probe_without_duration
                (Samples.video_stream "30/1") Samples.format_without_duration
                eq_refl eq_refl eq_refl) as (_ & H & _).
  apply (H 640 480); reflexivity.
Defined.

(** How a frame rate comes about: the field is a string that splits in
    two, the denominator parses, and either it is zero or the numerator
    parses too and the two are divided. *)
Lemma framerate_of_Ok (vs : gmap string json) (fr : spec_float) :
  framerate_of (JObj vs) = Ok fr ->
  exists s num den d,
    default (JStr "0/0") (vs !! "r_frame_rate") = JStr s
    /\ PyStr.split "/" s = [num; den]
    /\ PyStr.parse_float den = Some d
    /\ ((Float64.eqb d Float64.zero = true /\ fr = Float64.zero)
        \/ (Float64.eqb d Float64.zero = false
            /\ exists n, PyStr.parse_float num = Some n /\ fr = Float64.div n d)).
Proof.
  unfold framerate_of, Py.get. res_simpl.
  destruct (default (JStr "0/0") (vs !! "r_frame_rate")) as [| | | |s| |];
    simpl; try discriminate.
  destruct (PyStr.split "/" s) as [|num [|den [|]]] eqn:Hs; simpl; try discriminate.
  unfold Py.float_str.
  destruct (PyStr.parse_float den) as [d|] eqn:Hd; simpl; [|discriminate].
  destruct (Float64.eqb d Float64.zero) eqn:Hz; simpl.
  - intros [= <-]. exists s, num, den, d.
    split; [reflexivity|]. split; [exact Hs|]. split; [exact Hd|].
    left. split; [exact Hz|reflexivity].
  - destruct (PyStr.parse_float num) as [n|] eqn:Hn; simpl; [|discriminate].
    unfold Py.truediv. rewrite Hz. intros [= <-].
    exists s, num, den, d.
    split; [reflexivity|]. split; [exact Hs|]. split; [exact Hd|].
    right. split; [exact Hz|]. exists n. split; [exact Hn|reflexivity].
Qed.

(** C7, as stated, fails: the prober succeeds on a probe result that
    declares negative values and returns them unchanged. *)
Lemma negative_values_pass_through :
  metadata_of_probe Samples.negative_probe =
    Ok {| codec := JStr "unknown"; width := -640; height := -480;
          duration := Float64.of_Z (-10); framerate := Float64.of_Z (-30) |}
  /\ ~ metadata_invariant
         {| codec := JStr "unknown"; width := -640; height := -480;
            duration := Float64.of_Z (-10); framerate := Float64.of_Z (-30) |}.
Proof.
  split; [vm_compute; reflexivity|].
  intros (Hw & _). simpl in Hw. lia.
Qed.

(** C7, amended. The prober validates none of the values it reads: width
    and height are [int] of the declared values, the duration is [float] of
    the declared one, and the frame rate is the quotient of the declared
    numerator and denominator. So a record the prober returns satisfies the
    invariant whenever the probe result declares a width, a height and a
    duration that convert to values at least zero, and a frame rate whose
    numerator and denominator are numbers at least zero, not both
    infinite. *)
Theorem metadata_invariant_preserved (probe : json) (vs : gmap string json)
    (meta : VideoMetadata) :
  metadata_of_probe probe = Ok meta ->
  video_stream_of probe = Ok (JObj vs) ->
  when_Ok (Z.leb 0) (Py.int (default (JInt 0) (vs !! "width"))) = true ->
  when_Ok (Z.leb 0) (Py.int (default (JInt 0) (vs !! "height"))) = true ->
  when_Ok Float64.nonneg
    ((Py.getitem probe "format" ≫= fun fmt => Py.getitem fmt "duration")
       ≫= Py.float) = true ->
  nonneg_rate (default (JStr "0/0") (vs !! "r_frame_rate")) = true ->
  metadata_invariant meta.
Proof.
  intros (vs' & Hsel' & _ & _ & Hw & Hh & Hd & Hf)%metadata_of_probe_Ok Hsel.
  rewrite Hsel in Hsel'. injection Hsel' as <-.
  rewrite Hw, Hh, Hd. simpl. intros Pw Ph Pd Pr.
  repeat split; [lia|lia|exact Pd|].
  destruct (framerate_of_Ok _ _ Hf)
    as (s & num & den & d & Hr & Hs & Pden & [[_ ->]|(Hz & n & Pnum & ->)]);
    [reflexivity|].
  rewrite Hr in Pr. simpl in Pr. rewrite Hs, Pnum, Pden in Pr.
  apply andb_true_iff in Pr as [[Hn Hdn]%andb_true_iff Hinf%negb_true_iff].
  apply Float64Facts.div_nonneg; assumption.
Qed.

Lemma metadata_invariant_preserved_witness :
  metadata_invariant
    {| codec := JStr "h264"; width := 640; height := 480;
       duration := Float64.of_Z 10; framerate := Float64.of_Z 30 |}.
Proof.
  apply (metadata_invariant_preserved (Samples.probe_of "30/1")
           (Samples.video_stream "30/1"));
    vm_compute; reflexivity.
Defined.

(** C9, as stated, fails: an identifier with ['../'] sequences is not
    rejected. It is interpolated into the cache path, and when a file
    exists there the locator returns the path, which here names
    [static/video.mp4], outside the cache directory. *)
Lemma traversal_identifier_resolved :
  outcome (get_video_path
             (Samples.world ["static/cache/cached_a/../../video.mp4"] (Err ValueError))
             (Some "a/../../video"))
    = Ok (Some "static/cache/cached_a/../../video.mp4")
  /\ Path.normalize "static/cache/cached_a/../../video.mp4"
     = Some ["static"; "video.mp4"]
  /\ Path.inside_cache "static/cache/cached_a/../../video.mp4" = false.
Proof. repeat split; vm_compute; reflexivity. Qed.

Lemma cache_path_inside (video_id : string) :
  PyStr.contains "/" video_id = false ->
  Path.inside_cache ("static/cache/cached_" +:+ video_id +:+ ".mp4") = true.
Proof.
  intros H. unfold Path.inside_cache, Path.normalize.
  change ("static/cache/cached_" +:+ video_id +:+ ".mp4")
    with ("static" +:+ String "/" ("cache" +:+ String "/"
            ("cached_" +:+ video_id +:+ ".mp4"))).
  rewrite !PyStrFacts.split_app_sep by reflexivity.
  rewrite PyStrFacts.split_no_sep; [reflexivity|].
  rewrite !PyStrFacts.contains_app, H. reflexivity.
Qed.

(** C9, amended. The locator rejects no identifier: every non-empty
    identifier, whatever characters it contains, is interpolated as it is
    into [static/cache/cached_{identifier}.mp4], and that path is returned
    whenever a file exists at it. The returned path names an entry of the
    cache directory when the identifier contains no path separator. *)
Theorem cache_path_interpolation (w : World) (video_id : string) :
  video_id <> "" ->
  outcome (get_video_path w (Some video_id)) =
    Ok (if os_path_exists w ("static/cache/cached_" +:+ video_id +:+ ".mp4")
        then Some ("static/cache/cached_" +:+ video_id +:+ ".mp4")
        else None)
  /\ (PyStr.contains "/" video_id = false ->
        Path.inside_cache ("static/cache/cached_" +:+ video_id +:+ ".mp4") = true).
Proof.
  intros Hne. split.
  - rewrite (get_video_path_truthy w (Some video_id) (str_truthy_Some _ Hne)).
    reflexivity.
  - apply cache_path_inside.
Qed.

Lemma cache_path_interpolation_witness :
  outcome (get_video_path
             (Samples.world ["static/cache/cached_abc123.mp4"] (Err ValueError))
             (Some "abc123"))
    = Ok (Some "static/cache/cached_abc123.mp4")
  /\ Path.inside_cache "static/cache/cached_abc123.mp4" = true.
Proof.
  pose proof (cache_path_interpolation
                (Samples.world ["static/cache/cached_abc123.mp4"] (Err ValueError))
                "abc123" ltac:(discriminate)) as (H1 & H2).
  split; [rewrite H1; reflexivity|].
  apply H2. reflexivity.
Defined.

Lemma duration_not_ProbeError (probe : json) (e : exn) :
  (Py.getitem probe "format" ≫= fun fmt => Py.getitem fmt "duration")
    ≫= Py.float = Err e ->
  is_ProbeError e = false.
Proof.
  unfold Py.getitem. res_simpl.
  destruct probe as [| | | | | |pm]; try (intros [= <-]; reflexivity).
  destruct (pm !! "format") as [fmt|]; simpl; [|intros [= <-]; reflexivity].
  destruct fmt as [| | | | | |fm]; try (intros [= <-]; reflexivity).
  destruct (fm !! "duration") as [dv|]; simpl; [|intros [= <-]; reflexivity].
  apply float_not_ProbeError.
Qed.

(** C10, as stated, fails on ["abc/0"]: the numerator cannot be parsed, so
    the value is not made of two parsable substrings, yet the prober
    returns a record. The denominator is zero and the conditional
    expression of line 56 yields 0.0 without converting the numerator. *)
Lemma unparsable_numerator_zero_denominator :
  frame_rate_parsable "abc/0" = false
  /\ metadata_of_probe (Samples.probe_of "abc/0") =
       Ok {| codec := JStr "h264"; width := 640; height := 480;
             duration := Float64.of_Z 10; framerate := Float64.zero |}.
Proof. split; vm_compute; reflexivity. Qed.

(** C10, amended. Let the selected video stream carry a string
    [r_frame_rate] that is not made of exactly two ['/']-separated
    substrings each parsable as a float. If the string has exactly two
    parts and the second parses to zero, the prober takes the frame rate to
    be 0.0 and never converts the first part. In every other case the
    frame-rate computation raises [ValueError]; the prober then fails with
    an exception that is not a [ProbeError] ([ValueError] itself when the
    width, height and duration were read), and the [metadata] handler,
    which catches [ProbeError] only, lets it through. *)
Theorem malformed_frame_rate (probe : json) (vs : gmap string json)
    (s : string) :
  video_stream_of probe = Ok (JObj vs) ->
  vs !! "r_frame_rate" = Some (JStr s) ->
  frame_rate_parsable s = false ->
  (forall num den d,
      PyStr.split "/" s = [num; den] -> PyStr.parse_float den = Some d ->
      Float64.eqb d Float64.zero = true ->
      framerate_of (JObj vs) = Ok Float64.zero)
  /\ ((forall num den d,
         PyStr.split "/" s = [num; den] -> PyStr.parse_float den = Some d ->
         Float64.eqb d Float64.zero = false) ->
      framerate_of (JObj vs) = Err ValueError
      /\ (exists e, metadata_of_probe probe = Err e /\ is_ProbeError e = false)
      /\ (forall wd ht d,
            Py.int (default (JInt 0) (vs !! "width")) = Ok wd ->
            Py.int (default (JInt 0) (vs !! "height")) = Ok ht ->
            (Py.getitem probe "format" ≫= fun fmt => Py.getitem fmt "duration")
              ≫= Py.float = Ok d ->
            metadata_of_probe probe = Err ValueError)
      /\ (forall (w : World) (request : Request) (path : string),
            outcome (get_video_path w (args request !! "video_id")) = Ok (Some path) ->
            ffmpeg_probe w path = Ok probe ->
            exists e, outcome (metadata w request) = Err e
                      /\ is_ProbeError e = false)).
Proof.
  intros Hsel Hr Hnp.
  assert (Hv : declares_video (JObj vs) = true)
    by (destruct (video_stream_of_Ok _ _ Hsel) as [?|?]; [discriminate|assumption]).
  assert (Hdef : default (JStr "0/0") (vs !! "r_frame_rate") = JStr s)
    by (rewrite Hr; reflexivity).
  split.
  - intros num den d Hs Hd Hz.
    rewrite (framerate_of_split vs s num den d Hdef Hs Hd), Hz. reflexivity.
  - intros Hnz.
    assert (Hfr : framerate_of (JObj vs) = Err ValueError).
    { unfold frame_rate_parsable in Hnp.
      destruct (PyStr.split "/" s) as [|num [|den [|x l]]] eqn:Hs;
        try (unfold framerate_of, Py.get; res_simpl; rewrite Hr; simpl;
             rewrite Hs; reflexivity).
      destruct (PyStr.parse_float den) as [d|] eqn:Hd.
      - rewrite (framerate_of_split vs s num den d Hdef Hs Hd).
        rewrite (Hnz num den d eq_refl Hd).
        destruct (PyStr.parse_float num) as [n|] eqn:Hn.
        + rewrite !bool_decide_eq_true_2 in Hnp by eauto. discriminate.
        + unfold Py.float_str. rewrite Hn. reflexivity.
      - unfold framerate_of, Py.get, Py.float_str. res_simpl.
        rewrite Hr. simpl. rewrite Hs. simpl. rewrite Hd. reflexivity. }
    pose proof (metadata_of_probe_selected _ _ Hsel Hv) as Hm.
    rewrite Hfr in Hm.
    assert (Hex : exists e, metadata_of_probe probe = Err e /\ is_ProbeError e = false).
    { rewrite Hm.
      destruct (Py.int (default (JInt 0) (vs !! "width"))) as [wd|e] eqn:Ew;
        [|exists e; split; [reflexivity|exact (int_not_ProbeError _ _ Ew)]].
      destruct (Py.int (default (JInt 0) (vs !! "height"))) as [ht|e] eqn:Eh;
        [|exists e; split; [reflexivity|exact (int_not_ProbeError _ _ Eh)]].
      change (Ok wd ≫= ?f) with (f wd). cbv beta.
      change (Ok ht ≫= ?f) with (f ht). cbv beta.
      destruct ((Py.getitem probe "format" ≫= fun fmt => Py.getitem fmt "duration")
                  ≫= Py.float) as [d|e] eqn:Ed;
        [|exists e; split; [reflexivity|exact (duration_not_ProbeError _ _ Ed)]].
      exists ValueError. split; reflexivity. }
    split; [exact Hfr|]. split; [exact Hex|]. split.
    + intros wd ht d Hw Hh Hd. rewrite Hm, Hw, Hh.
      change (Ok wd ≫= ?f) with (f wd). cbv beta.
      change (Ok ht ≫= ?f) with (f ht). cbv beta.
      rewrite Hd. reflexivity.
    + intros w request path Hp Hprobe. destruct Hex as (e & He & Hne).
      exists e. split; [|exact Hne].
      apply (metadata_unhandled w request path e Hp); [|exact Hne].
      rewrite get_video_metadata_unfold, Hprobe. exact He.
Qed.

Lemma malformed_frame_rate_witness :
  metadata_of_probe (Samples.probe_of "NaNtext") = Err ValueError
  /\ metadata_of_probe (Samples.probe_of "30") = Err ValueError
  /\ metadata_of_probe (Samples.probe_of "1/2/3") = Err ValueError
  /\ framerate_of (JObj (Samples.video_stream "abc/0")) = Ok Float64.zero.
Proof.
  repeat apply conj.
  - pose proof (malformed_frame_rate (Samples.probe_of "NaNtext")
                  (Samples.video_stream "NaNtext") "NaNtext"
                  eq_refl eq_refl eq_refl) as (_ & H).
    apply (H ltac:(intros ? ? ? [=])) with (wd := 640) (ht := 480) (d := Float64.of_Z 10);
      vm_compute; reflexivity.
  - pose proof (malformed_frame_rate (Samples.probe_of "30")
                  (Samples.video_stream "30") "30"
                  eq_refl eq_refl eq_refl) as (_ & H).
    apply (H ltac:(intros ? ? ? [=])) with (wd := 640) (ht := 480) (d := Float64.of_Z 10);
      vm_compute; reflexivity.
  - pose proof (malformed_frame_rate (Samples.probe_of "1/2/3")
                  (Samples.video_stream "1/2/3") "1/2/3"
                  eq_refl eq_refl eq_refl) as (_ & H).
    apply (H ltac:(intros ? ? ? [=])) with (wd := 640) (ht := 480) (d := Float64.of_Z 10);
      vm_compute; reflexivity.
  - pose proof (malformed_frame_rate (Samples.probe_of "abc/0")
                  (Samples.video_stream "abc/0") "abc/0"
                  eq_refl eq_refl eq_refl) as (H & _).
    apply (H "abc" "0" Float64.zero); reflexivity.
Defined.


(* ===================================================================== *)
(** ** Further properties of the handlers *)
(* ===================================================================== *)

Section ResolutionFacts.

Context (w : World).

Lemma get_video_path_requested (request : Request) :
  get_video_path w (args request !! "video_id") =
    mkM (check_trace request)
        (Ok (if available w request then Some (requested_path request) else None)).
Proof.
  unfold check_trace, available, requested_path.
  destruct (str_truthy (args request !! "video_id")) eqn:E.
  - rewrite (get_video_path_truthy w _ E). reflexivity.
  - rewrite (get_video_path_falsy w _ E). reflexivity.
Qed.

Lemma not_available_truthy (request : Request) :
  available w request = false -> str_truthy (args request !! "video_id") = true.
Proof.
  unfold available. destruct (str_truthy _); [reflexivity|discriminate].
Qed.

(** The guard of the handlers, by cases on the request. *)
Lemma with_video_path_available (request : Request) (k : string -> M Response) :
  available w request = true ->
  with_video_path w (args request !! "video_id") k =
    mkM (check_trace request ++ trace (k (requested_path request)))
        (outcome (k (requested_path request))).
Proof.
  intros Ha. unfold with_video_path.
  rewrite get_video_path_requested, Ha. reflexivity.
Qed.

Lemma with_video_path_missing (request : Request) (k : string -> M Response) :
  available w request = false ->
  with_video_path w (args request !! "video_id") k =
    mkM [EvExists (requested_path request)] (Ok (not_found request)).
Proof.
  intros Ha. pose proof (not_available_truthy _ Ha) as Ht.
  unfold with_video_path. rewrite get_video_path_requested, Ha.
  unfold check_trace. res_simpl. rewrite Ht. reflexivity.
Qed.

Lemma serve_video_available (request : Request) :
  available w request = true ->
  serve_video w request =
    mkM (check_trace request) (Ok (SendFile (requested_path request) "video/mp4")).
Proof.
  intros Ha. unfold serve_video.
  rewrite get_video_path_requested, Ha. res_simpl.
  rewrite app_nil_r. reflexivity.
Qed.

Lemma serve_video_missing (request : Request) :
  available w request = false ->
  serve_video w request =
    mkM [EvExists (requested_path request)] (Ok (ServeError (not_found request))).
Proof.
  intros Ha. pose proof (not_available_truthy _ Ha) as Ht.
  unfold serve_video. rewrite get_video_path_requested, Ha.
  unfold check_trace. res_simpl. rewrite Ht. reflexivity.
Qed.

End ResolutionFacts.

Section HandlerTraces.

Context (w : World).

Lemma try_except_trace_mret {A} (m : M A) (caught : exn -> bool)
    (h : exn -> Response) (k : A -> M Response) :
  trace (try_except m caught (fun exc => mret (h exc)) k) =
    (trace m ++ match outcome m with
                | Ok a => trace (k a)
                | Err _ => []
                end)%list.
Proof.
  unfold try_except. destruct (outcome m) as [a|e]; simpl; [reflexivity|].
  destruct (caught e); simpl; rewrite ?app_nil_r; reflexivity.
Qed.

Lemma extract_frame_trace (path : string) (t d : spec_float) :
  trace (extract_frame w path t d) =
    if out_of_bounds t d then [] else [EvRun path t].
Proof.
  unfold extract_frame. destruct (out_of_bounds t d); [reflexivity|].
  rewrite try_except_trace_mret. simpl.
  destruct (ffmpeg_run w path t); reflexivity.
Qed.

(** The calls [metadata] makes. *)
Lemma metadata_trace (request : Request) :
  trace (metadata w request) =
    (check_trace request ++
     if available w request then [EvProbe (requested_path request)] else [])%list.
Proof.
  unfold metadata. destruct (available w request) eqn:Ha.
  - rewrite (with_video_path_available w _ _ Ha). simpl.
    rewrite try_except_trace_mret, get_video_metadata_unfold. simpl.
    destruct (ffmpeg_probe w _ ≫= metadata_of_probe); reflexivity.
  - rewrite (with_video_path_missing w _ _ Ha). simpl.
    unfold check_trace. rewrite (not_available_truthy w _ Ha). reflexivity.
Qed.

(** The calls [thumbnail] makes for a request with a usable timestamp. *)
Lemma thumbnail_trace (request : Request) (t : spec_float) :
  args request !! "timestamp" ≫= PyStr.parse_float = Some t ->
  trace (thumbnail w request) =
    (check_trace request ++
     if available w request then
       EvProbe (requested_path request) ::
       match ffmpeg_probe w (requested_path request) ≫= metadata_of_probe with
       | Ok meta =>
           if out_of_bounds t (duration meta) then []
           else [EvRun (requested_path request) t]
       | Err _ => []
       end
     else [])%list.
Proof.
  intros Ht. unfold thumbnail. rewrite Ht.
  destruct (available w request) eqn:Ha.
  - rewrite (with_video_path_available w _ _ Ha). simpl.
    rewrite try_except_trace_mret, get_video_metadata_unfold. simpl.
    destruct (ffmpeg_probe w _ ≫= metadata_of_probe) as [meta|e];
      [|reflexivity].
    rewrite extract_frame_trace. reflexivity.
  - rewrite (with_video_path_missing w _ _ Ha). simpl.
    unfold check_trace. rewrite (not_available_truthy w _ Ha). reflexivity.
Qed.

End HandlerTraces.

(** X1. Client errors are answered before anything is probed. A
    [thumbnail] request whose timestamp is absent or not a float literal
    gets the 400 "Missing timestamp" body without any call to the
    filesystem, ffprobe or ffmpeg, whatever its [video_id]. A request for
    an identifier whose cache file does not exist gets the same 404 body
    from [metadata], [serve_video] and (given a usable timestamp)
    [thumbnail], after the one existence check and nothing else. *)
Theorem client_errors_before_probe (w : World) (request : Request) :
  (args request !! "timestamp" ≫= PyStr.parse_float = None ->
     thumbnail w request = mkM [] (Ok (JsonError 400 "Missing timestamp parameter")))
  /\ (forall id, args request !! "video_id" = Some id -> id <> "" ->
        os_path_exists w ("static/cache/cached_" +:+ id +:+ ".mp4") = false ->
        metadata w request =
          mkM [EvExists ("static/cache/cached_" +:+ id +:+ ".mp4")]
              (Ok (JsonError 404 ("Cached video not found for video_id " +:+ id)))
        /\ serve_video w request =
          mkM [EvExists ("static/cache/cached_" +:+ id +:+ ".mp4")]
              (Ok (ServeError
                     (JsonError 404 ("Cached video not found for video_id " +:+ id))))
        /\ (forall t, args request !! "timestamp" ≫= PyStr.parse_float = Some t ->
              thumbnail w request =
                mkM [EvExists ("static/cache/cached_" +:+ id +:+ ".mp4")]
                    (Ok (JsonError 404 ("Cached video not found for video_id " +:+ id))))).
Proof.
  split.
  - intros Ht. unfold thumbnail. rewrite Ht. reflexivity.
  - intros id Hid Hne Hex.
    assert (Htr : str_truthy (args request !! "video_id") = true)
      by (rewrite Hid; apply str_truthy_Some, Hne).
    assert (Hp : requested_path request = "static/cache/cached_" +:+ id +:+ ".mp4")
      by (unfold requested_path; rewrite Htr, Hid; reflexivity).
    assert (Ha : available w request = false)
      by (unfold available; rewrite Htr, Hp, Hex; reflexivity).
    assert (Hnf : not_found request =
                  JsonError 404 ("Cached video not found for video_id " +:+ id))
      by (unfold not_found; rewrite Hid; reflexivity).
    repeat split.
    + unfold metadata. rewrite (with_video_path_missing w _ _ Ha), Hp, Hnf.
      reflexivity.
    + rewrite (serve_video_missing w _ Ha), Hp, Hnf. reflexivity.
    + intros t Ht. unfold thumbnail. rewrite Ht.
      rewrite (with_video_path_missing w _ _ Ha), Hp, Hnf. reflexivity.
Qed.

Lemma client_errors_before_probe_witness :
  thumbnail (Samples.world [] (Ok (Samples.probe_of "30/1")))
            (Samples.request [("timestamp", "soon"); ("video_id", "missing")])
  = mkM [] (Ok (JsonError 400 "Missing timestamp parameter"))
  /\ serve_video (Samples.world [] (Ok (Samples.probe_of "30/1")))
                 (Samples.request [("video_id", "missing")])
     = mkM [EvExists "static/cache/cached_missing.mp4"]
           (Ok (ServeError
                  (JsonError 404 "Cached video not found for video_id missing"))).
Proof.
  split.
  - apply (client_errors_before_probe
             (Samples.world [] (Ok (Samples.probe_of "30/1")))
             (Samples.request [("timestamp", "soon"); ("video_id", "missing")])).
    reflexivity.
  - pose proof (client_errors_before_probe
                  (Samples.world [] (Ok (Samples.probe_of "30/1")))
                  (Samples.request [("video_id", "missing")])) as (_ & H).
    apply (H "missing" eq_refl ltac:(discriminate) eq_refl).
Defined.

(** X2. Probing and extraction only ever touch the resolved path. Whenever
    [metadata] or [thumbnail] calls ffprobe on a path, or [thumbnail] runs
    the extraction on one, the path is the default video (for an absent or
    empty identifier) or the cache path of the request's identifier, and in
    the latter case the existence check succeeded. *)
Theorem external_calls_on_resolved_path (w : World) (request : Request)
    (path : string) :
  EvProbe path ∈ trace (metadata w request)
  \/ EvProbe path ∈ trace (thumbnail w request)
  \/ (exists t, EvRun path t ∈ trace (thumbnail w request)) ->
  (str_truthy (args request !! "video_id") = false /\ path = "static/video.mp4")
  \/ (exists id, args request !! "video_id" = Some id /\ id <> ""
        /\ path = "static/cache/cached_" +:+ id +:+ ".mp4"
        /\ os_path_exists w path = true).
Proof.
  intros H.
  assert (Hres : available w request = true /\ path = requested_path request).
  { assert (Hchk : forall ev, ev ∈ check_trace request -> is_EvExists ev = true).
    { intros ev. unfold check_trace. destruct (str_truthy _).
      - intros [->|[]%elem_of_nil]%elem_of_cons. reflexivity.
      - intros []%elem_of_nil. }
    destruct H as [H|[H|(t & H)]].
    - rewrite metadata_trace in H. apply elem_of_app in H as [H|H].
      { apply Hchk in H. discriminate. }
      destruct (available w request); [|apply elem_of_nil in H as []].
      apply elem_of_cons in H as [[= ->]|[]%elem_of_nil]. auto.
    - destruct (args request !! "timestamp" ≫= PyStr.parse_float) as [t|] eqn:Ht.
      + rewrite (thumbnail_trace w _ t Ht) in H. apply elem_of_app in H as [H|H].
        { apply Hchk in H. discriminate. }
        destruct (available w request); [|apply elem_of_nil in H as []].
        apply elem_of_cons in H as [[= ->]|H]; [auto|].
        destruct (ffmpeg_probe w _ ≫= metadata_of_probe) as [meta|e];
          [|apply elem_of_nil in H as []].
        destruct (out_of_bounds t (duration meta));
          [apply elem_of_nil in H as []|].
        apply elem_of_cons in H as [[=]|[]%elem_of_nil].
      + unfold thumbnail in H. rewrite Ht in H. apply elem_of_nil in H as [].
    - destruct (args request !! "timestamp" ≫= PyStr.parse_float) as [t'|] eqn:Ht.
      + rewrite (thumbnail_trace w _ t' Ht) in H. apply elem_of_app in H as [H|H].
        { apply Hchk in H. discriminate. }
        destruct (available w request); [|apply elem_of_nil in H as []].
        apply elem_of_cons in H as [[=]|H].
        destruct (ffmpeg_probe w _ ≫= metadata_of_probe) as [meta|e];
          [|apply elem_of_nil in H as []].
        destruct (out_of_bounds t' (duration meta));
          [apply elem_of_nil in H as []|].
        apply elem_of_cons in H as [[= -> _]|[]%elem_of_nil]. auto.
      + unfold thumbnail in H. rewrite Ht in H. apply elem_of_nil in H as []. }
  destruct Hres as [Ha ->]. unfold available, requested_path in *.
  destruct (str_truthy (args request !! "video_id")) eqn:Htr.
  - right. destruct (args request !! "video_id") as [id|] eqn:Hid;
      [|discriminate].
    exists id. simpl in Htr. apply negb_true_iff, String.eqb_neq in Htr.
    repeat split; [exact Htr|exact Ha].
  - left. split; reflexivity.
Qed.

Lemma external_calls_on_resolved_path_witness :
  os_path_exists (Samples.world ["static/cache/cached_abc123.mp4"]
                                (Ok (Samples.probe_of "30/1")))
                 "static/cache/cached_abc123.mp4" = true.
Proof.
  destruct (external_calls_on_resolved_path
              (Samples.world ["static/cache/cached_abc123.mp4"]
                             (Ok (Samples.probe_of "30/1")))
              (Samples.request [("video_id", "abc123")])
              "static/cache/cached_abc123.mp4")
    as [[H _]|(id & Hid & _ & Hp & Hex)].
  - left. vm_compute. apply elem_of_cons. right. apply elem_of_cons. left. reflexivity.
  - discriminate H.
  - exact Hex.
Defined.

(** X3. Order and number of calls. Every handler makes at most one
    existence check, and only for a non-empty identifier; [serve_video]
    calls neither ffprobe nor ffmpeg (it hands the path to [send_file],
    whose own file access is Flask's and no event here); [metadata] then
    probes at most once; [thumbnail] then probes at most once and after
    that runs the extraction at most once, on the probed path and with the
    parsed timestamp, and makes no call when [float] refuses the
    timestamp. *)
Theorem handler_call_order (w : World) (request : Request) :
  trace (serve_video w request) = check_trace request
  /\ trace (metadata w request)
       `prefix_of` (check_trace request ++ [EvProbe (requested_path request)])%list
  /\ (forall t, args request !! "timestamp" ≫= PyStr.parse_float = Some t ->
        trace (thumbnail w request)
          `prefix_of` (check_trace request ++
                       [EvProbe (requested_path request);
                        EvRun (requested_path request) t])%list)
  /\ (args request !! "timestamp" ≫= PyStr.parse_float = None ->
        trace (thumbnail w request) = [])
  /\ (check_trace request = []
      \/ exists id, args request !! "video_id" = Some id /\ id <> ""
           /\ check_trace request =
                [EvExists ("static/cache/cached_" +:+ id +:+ ".mp4")]).
Proof.
  repeat apply conj.
  - destruct (available w request) eqn:Ha.
    + rewrite (serve_video_available w _ Ha). reflexivity.
    + rewrite (serve_video_missing w _ Ha). unfold check_trace.
      rewrite (not_available_truthy w _ Ha). reflexivity.
  - rewrite metadata_trace. apply prefix_app.
    destruct (available w request); [reflexivity|apply prefix_nil].
  - intros t Ht. rewrite (thumbnail_trace w _ t Ht). apply prefix_app.
    destruct (available w request); [|apply prefix_nil].
    apply prefix_cons.
    destruct (ffmpeg_probe w _ ≫= metadata_of_probe) as [meta|e];
      [|apply prefix_nil].
    destruct (out_of_bounds t (duration meta)); [apply prefix_nil|reflexivity].
  - intros Ht. unfold thumbnail. rewrite Ht. reflexivity.
  - unfold check_trace, requested_path.
    destruct (str_truthy (args request !! "video_id")) eqn:Htr; [|auto].
    right. destruct (args request !! "video_id") as [id|]; [|discriminate].
    exists id. simpl in Htr. apply negb_true_iff, String.eqb_neq in Htr. auto.
Qed.

Lemma handler_call_order_witness :
  trace (thumbnail (Samples.world [] (Ok (Samples.probe_of "30/1")))
                   (Samples.request [("timestamp", "15")]))
    `prefix_of` [EvProbe "static/video.mp4";
                 EvRun "static/video.mp4" (Float64.of_Z 15)].
Proof.
  pose proof (handler_call_order
                (Samples.world [] (Ok (Samples.probe_of "30/1")))
                (Samples.request [("timestamp", "15")])) as (_ & _ & H & _).
  apply (H (Float64.of_Z 15)). vm_compute. reflexivity.
Defined.

Lemma getitem_not_ProbeError (v : json) (k : string) (e : exn) :
  Py.getitem v k = Err e -> prober_raises e = true /\ is_ProbeError e = false
                            \/ ~ k ∈ ["streams"; "codec_type"; "format"; "duration"].
Proof.
  destruct v as [| | | | | |m]; simpl; try (intros [= <-]; auto).
  destruct (m !! k); simpl; [discriminate|]. intros [= <-].
  destruct (decide (k ∈ ["streams"; "codec_type"; "format"; "duration"])) as [Hin|Hn];
    [left|right; exact Hn].
  split; [|reflexivity]. simpl. apply bool_decide_eq_true_2, Hin.
Qed.

Lemma getitem_raises (v : json) (k : string) (e : exn) :
  k ∈ ["streams"; "codec_type"; "format"; "duration"] ->
  Py.getitem v k = Err e -> prober_raises e = true /\ is_ProbeError e = false.
Proof.
  intros Hk He. destruct (getitem_not_ProbeError v k e He) as [H|H];
    [exact H|contradiction].
Qed.

Lemma next_video_stream_raises (streams : list json) (e : exn) :
  next_video_stream streams = Err e ->
  prober_raises e = true /\ is_ProbeError e = false.
Proof.
  induction streams as [|s l IH]; simpl; [discriminate|].
  destruct (Py.getitem s "codec_type") as [t|e'] eqn:E; res_simpl.
  - destruct (Py.eq_str t "video"); [discriminate|exact IH].
  - intros [= <-]. apply (getitem_raises s "codec_type"); [|exact E].
    apply elem_of_cons. right. apply elem_of_cons. left. reflexivity.
Qed.

Lemma video_stream_of_raises (probe : json) (e : exn) :
  video_stream_of probe = Err e ->
  prober_raises e = true /\ is_ProbeError e = false.
Proof.
  unfold video_stream_of.
  destruct (Py.getitem probe "streams") as [streams|e'] eqn:E; res_simpl.
  - destruct (Py.iter streams) as [items|e''] eqn:Ei; simpl.
    + apply next_video_stream_raises.
    + intros [= <-]. destruct streams; simpl in Ei; try discriminate;
        injection Ei as <-; split; reflexivity.
  - intros [= <-]. apply (getitem_raises probe "streams"); [|exact E].
    apply elem_of_cons. left. reflexivity.
Qed.

Lemma int_raises (v : json) (e : exn) :
  Py.int v = Err e -> prober_raises e = true.
Proof.
  destruct v as [| | |f|s| |]; simpl; try (intros [= <-]; reflexivity).
  - destruct (Float64.is_nan f); [intros [= <-]; reflexivity|].
    destruct (Float64.trunc f); simpl; intros [= <-]; reflexivity.
  - destruct (PyStr.parse_int s); simpl; intros [= <-]; reflexivity.
Qed.

Lemma duration_raises (probe : json) (e : exn) :
  (Py.getitem probe "format" ≫= fun fmt => Py.getitem fmt "duration")
    ≫= Py.float = Err e ->
  prober_raises e = true.
Proof.
  unfold Py.getitem. res_simpl.
  destruct probe as [| | | | | |pm]; try (intros [= <-]; reflexivity).
  destruct (pm !! "format") as [fmt|]; simpl; [|intros [= <-]; reflexivity].
  destruct fmt as [| | | | | |fm]; try (intros [= <-]; reflexivity).
  destruct (fm !! "duration") as [dv|]; simpl; [|intros [= <-]; reflexivity].
  destruct dv as [| |z| |s| |]; simpl; try (intros [= <-]; reflexivity).
  - destruct (Float64.is_inf _); intros [= <-]; reflexivity.
  - unfold of_option.
    destruct (PyStr.parse_float s); simpl; intros [= <-]; reflexivity.
Qed.

(** The frame-rate computation ends with a value, [AttributeError] (the
    field is not a string) or [ValueError]; the guard on the denominator
    keeps the division from ever raising. *)
Lemma framerate_of_raises (vs : gmap string json) (e : exn) :
  framerate_of (JObj vs) = Err e -> e = AttributeError \/ e = ValueError.
Proof.
  unfold framerate_of, Py.get. res_simpl.
  destruct (default (JStr "0/0") (vs !! "r_frame_rate")) as [| | | |s| |];
    simpl; try (intros [= <-]; auto).
  destruct (PyStr.split "/" s) as [|num [|den [|]]]; simpl;
    try (intros [= <-]; auto).
  unfold Py.float_str.
  destruct (PyStr.parse_float den) as [d|]; simpl; [|intros [= <-]; auto].
  destruct (Float64.eqb d Float64.zero) eqn:Hz; simpl; [discriminate|].
  destruct (PyStr.parse_float num) as [n|]; simpl; [|intros [= <-]; auto].
  unfold Py.truediv. rewrite Hz. discriminate.
Qed.

Lemma metadata_of_probe_selected_raises (probe : json) (vs : gmap string json)
    (e : exn) :
  video_stream_of probe = Ok (JObj vs) ->
  metadata_of_probe probe = Err e ->
  prober_raises e = true /\ is_ProbeError e = false.
Proof.
  intros Hsel.
  assert (Hv : declares_video (JObj vs) = true)
    by (destruct (video_stream_of_Ok _ _ Hsel) as [?|?]; [discriminate|assumption]).
  rewrite (metadata_of_probe_selected _ _ Hsel Hv).
  destruct (Py.int (default (JInt 0) (vs !! "width"))) as [wd|e1] eqn:Ew.
  2:{ intros [= <-]. split; [exact (int_raises _ _ Ew)|exact (int_not_ProbeError _ _ Ew)]. }
  change (Ok wd ≫= ?f) with (f wd). cbv beta.
  destruct (Py.int (default (JInt 0) (vs !! "height"))) as [ht|e1] eqn:Eh.
  2:{ intros [= <-]. split; [exact (int_raises _ _ Eh)|exact (int_not_ProbeError _ _ Eh)]. }
  change (Ok ht ≫= ?f) with (f ht). cbv beta.
  destruct ((Py.getitem probe "format" ≫= fun fmt => Py.getitem fmt "duration")
              ≫= Py.float) as [d|e1] eqn:Ed.
  2:{ intros [= <-].
      split; [exact (duration_raises _ _ Ed)|exact (duration_not_ProbeError _ _ Ed)]. }
  change (Ok d ≫= ?f) with (f d). cbv beta.
  destruct (framerate_of (JObj vs)) as [fr|e1] eqn:Ef; [discriminate|].
  intros [= <-]. destruct (framerate_of_raises _ _ Ef) as [->| ->]; split; reflexivity.
Qed.

(** X4. When the prober reports "no video stream". The body of the prober
    ends with a [ProbeError] exactly when the streams of the probe result
    can be iterated and every one of them declares a codec type other than
    ['video'] (an empty list included); the message is then
    ['No video stream found']. No other failure is a [ProbeError]. *)
Theorem probe_error_exactly_no_video (probe : json) (msg : string) :
  metadata_of_probe probe = Err (ProbeError msg) <->
  msg = "No video stream found"
  /\ exists items,
       Py.getitem probe "streams" ≫= Py.iter = Ok items
       /\ Forall (fun s => declares_other s = true) items.
Proof.
  split.
  - intros H. destruct (video_stream_of probe) as [v|e] eqn:Hsel.
    + destruct (video_stream_of_Ok _ _ Hsel) as [->|Hv].
      * unfold metadata_of_probe in H. rewrite Hsel in H.
        injection H as <-. split; [reflexivity|].
        unfold video_stream_of in Hsel. res_simpl.
        destruct (Py.getitem probe "streams") as [streams|]; [|discriminate].
        destruct (Py.iter streams) as [items|]; [|discriminate].
        exists items. split; [reflexivity|].
        apply next_video_stream_Ok in Hsel
          as [[_ Hall]|(pre & post & _ & _ & Hv)]; [exact Hall|discriminate].
      * destruct (declares_video_inv _ Hv) as (vs & -> & _).
        destruct (metadata_of_probe_selected_raises _ _ _ Hsel H) as [_ Hn].
        discriminate.
    + unfold metadata_of_probe in H. rewrite Hsel in H.
      destruct (video_stream_of_raises _ _ Hsel) as [_ Hn].
      injection H as ->. discriminate.
  - intros (-> & items & Hit & Hall).
    unfold metadata_of_probe, video_stream_of. res_simpl.
    destruct (Py.getitem probe "streams") as [streams|]; [|discriminate].
    rewrite Hit, (next_video_stream_none _ Hall). reflexivity.
Qed.

(** X5. The exceptions of the prober. Whatever JSON ffprobe returns, the
    body of the prober either returns a record or ends with
    [ProbeError('No video stream found')], a [KeyError] for one of
    ['streams'], ['codec_type'], ['format'], ['duration'], a [TypeError], a
    [ValueError], an [AttributeError] or an [OverflowError]. It never
    raises [ZeroDivisionError]: the test on the denominator covers every
    zero, [-0.0] and ["0e5"] included. [get_video_metadata] adds only what
    the inspection call itself raises. *)
Theorem prober_exceptions (w : World) (video_path : string) (probe : json)
    (e : exn) :
  (metadata_of_probe probe = Err e ->
     prober_raises e = true /\ e <> ZeroDivisionError)
  /\ (outcome (get_video_metadata w video_path) = Err e ->
        ffmpeg_probe w video_path = Err e \/ prober_raises e = true).
Proof.
  assert (Hbody : forall p, metadata_of_probe p = Err e -> prober_raises e = true).
  { intros p H. destruct (video_stream_of p) as [v|e'] eqn:Hsel.
    - destruct (video_stream_of_Ok _ _ Hsel) as [->|Hv].
      + unfold metadata_of_probe in H. rewrite Hsel in H.
        injection H as <-. reflexivity.
      + destruct (declares_video_inv _ Hv) as (vs & -> & _).
        apply (metadata_of_probe_selected_raises _ _ _ Hsel H).
    - unfold metadata_of_probe in H. rewrite Hsel in H. injection H as <-.
      apply (video_stream_of_raises _ _ Hsel). }
  split.
  - intros H. pose proof (Hbody _ H) as Hr. split; [exact Hr|].
    intros ->. discriminate.
  - rewrite get_video_metadata_unfold. simpl.
    destruct (ffmpeg_probe w video_path) as [p|e'].
    + intros H. right. apply (Hbody p H).
    + intros [= ->]. left. reflexivity.
Qed.

Lemma prober_exceptions_witness :
  prober_raises AttributeError = true /\ AttributeError <> ZeroDivisionError.
Proof.
  apply (prober_exceptions (Samples.world [] (Err ValueError)) "static/video.mp4"
           (Samples.obj [("streams",
                          JList [Samples.obj [("codec_type", JStr "video");
                                              ("r_frame_rate", JInt 30)]]);
                         ("format", Samples.obj [("duration", JStr "1")])])
           AttributeError).
  vm_compute. reflexivity.
Defined.

Lemma length_append (a b : string) :
  String.length (a +:+ b) = (String.length a + String.length b)%nat.
Proof. induction a as [|c a IH]; simpl; [reflexivity|]. rewrite IH. reflexivity. Qed.

(** A common suffix can be cancelled. *)
Lemma append_inj_l (a b s : string) : a +:+ s = b +:+ s -> a = b.
Proof.
  revert b. induction a as [|c a IH]; intros [|d b] H; simpl in H.
  - reflexivity.
  - apply (f_equal String.length) in H.
    change (String d b +:+ s) with (String d (b +:+ s)) in H.
    simpl in H. rewrite !length_append in H. simpl in H. lia.
  - apply (f_equal String.length) in H.
    change (String c a +:+ s) with (String c (a +:+ s)) in H.
    simpl in H. rewrite !length_append in H. simpl in H. lia.
  - change (String c (a +:+ s) = String d (b +:+ s)) in H.
    injection H as -> H. f_equal. apply IH, H.
Qed.

(** X6. One identifier, one path. Two different non-empty identifiers are
    never resolved to the same path, and no identifier is resolved to the
    path of the default video: the locator returns [static/video.mp4] only
    for an absent or empty identifier. *)
Theorem resolved_paths_distinct (w : World) (id1 id2 : string) (p1 p2 : string) :
  id1 <> "" -> id2 <> "" ->
  outcome (get_video_path w (Some id1)) = Ok (Some p1) ->
  outcome (get_video_path w (Some id2)) = Ok (Some p2) ->
  (p1 = p2 -> id1 = id2) /\ p1 <> "static/video.mp4".
Proof.
  intros H1 H2.
  rewrite (get_video_path_truthy w _ (str_truthy_Some _ H1)).
  rewrite (get_video_path_truthy w _ (str_truthy_Some _ H2)). simpl.
  destruct (os_path_exists w _); [|discriminate]. intros [= <-].
  destruct (os_path_exists w _); [|discriminate]. intros [= <-].
  split; [|discriminate].
  unfold cache_path. simpl. intros [= H].
  apply (append_inj_l id1 id2 ".mp4"). exact H.
Qed.

Lemma resolved_paths_distinct_witness :
  "static/cache/cached_abc123.mp4" <> "static/video.mp4".
Proof.
  apply (resolved_paths_distinct
           (Samples.world ["static/cache/cached_abc123.mp4"] (Err ValueError))
           "abc123" "abc123"
           "static/cache/cached_abc123.mp4" "static/cache/cached_abc123.mp4");
    [discriminate|discriminate|reflexivity|reflexivity].
Defined.

Section HandlerOutcomes.

Context (w : World).

Lemma try_except_outcome {A B} (m : M A) (caught : exn -> bool)
    (handler : exn -> M B) (k : A -> M B) :
  outcome (try_except m caught handler k) =
    match outcome m with
    | Ok a => outcome (k a)
    | Err e => if caught e then outcome (handler e) else Err e
    end.
Proof.
  unfold try_except. destruct (outcome m) as [a|e]; [reflexivity|].
  destruct (caught e); reflexivity.
Qed.

(** How [metadata] ends. *)
Lemma metadata_outcome (request : Request) :
  outcome (metadata w request) =
    if available w request then
      match outcome (get_video_metadata w (requested_path request)) with
      | Ok meta => Ok (JsonMeta meta)
      | Err e =>
          if is_ProbeError e then
            Ok (JsonErrorExc 500 "Unable to retrieve video metadata" "message" e)
          else Err e
      end
    else Ok (not_found request).
Proof.
  unfold metadata. destruct (available w request) eqn:Ha.
  - rewrite (with_video_path_available w _ _ Ha). simpl.
    rewrite try_except_outcome. reflexivity.
  - rewrite (with_video_path_missing w _ _ Ha). reflexivity.
Qed.

(** How [thumbnail] ends for a request with a usable timestamp. *)
Lemma thumbnail_outcome (request : Request) (t : spec_float) :
  args request !! "timestamp" ≫= PyStr.parse_float = Some t ->
  outcome (thumbnail w request) =
    if available w request then
      match outcome (get_video_metadata w (requested_path request)) with
      | Ok meta =>
          outcome (extract_frame w (requested_path request) t (duration meta))
      | Err e =>
          if is_ProbeError e then
            Ok (JsonErrorExc 500 "Unable to retrieve video metadata" "message" e)
          else Err e
      end
    else Ok (not_found request).
Proof.
  intros Ht. unfold thumbnail. rewrite Ht.
  destruct (available w request) eqn:Ha.
  - rewrite (with_video_path_available w _ _ Ha). simpl.
    rewrite try_except_outcome. reflexivity.
  - rewrite (with_video_path_missing w _ _ Ha). reflexivity.
Qed.

Lemma extract_frame_outcome (path : string) (t d : spec_float) :
  outcome (extract_frame w path t d) =
    if out_of_bounds t d then
      Ok (JsonError 400 "Timestamp out of video duration bounds")
    else
      match ffmpeg_run w path t with
      | Ok out => Ok (Data out "image/png")
      | Err e =>
          if run_caught e then
            Ok (JsonErrorExc 500 "Error generating thumbnail" "details" e)
          else Err e
      end.
Proof.
  unfold extract_frame. destruct (out_of_bounds t d); [reflexivity|].
  rewrite try_except_outcome. reflexivity.
Qed.

End HandlerOutcomes.

(** X7. What the handlers do with a failed probe. When the prober fails on
    the resolved path, [metadata] and [thumbnail] answer alike: a
    [ProbeError] becomes the 500 JSON body carrying its message, and every
    other exception, [ffmpeg.Error] of the inspection call included, leaves
    the handler uncaught. In neither case does [thumbnail] run the
    extraction. *)
Theorem failed_probe_in_handlers (w : World) (request : Request) (e : exn) :
  available w request = true ->
  outcome (get_video_metadata w (requested_path request)) = Err e ->
  (is_ProbeError e = true ->
     outcome (metadata w request) =
       Ok (JsonErrorExc 500 "Unable to retrieve video metadata" "message" e))
  /\ (is_ProbeError e = false -> outcome (metadata w request) = Err e)
  /\ (forall t, args request !! "timestamp" ≫= PyStr.parse_float = Some t ->
        outcome (thumbnail w request) = outcome (metadata w request)
        /\ forall path ts, EvRun path ts ∉ trace (thumbnail w request)).
Proof.
  intros Ha He.
  pose proof (metadata_outcome w request) as Hm. rewrite Ha, He in Hm.
  repeat apply conj.
  - intros Hp. rewrite Hm, Hp. reflexivity.
  - intros Hp. rewrite Hm, Hp. reflexivity.
  - intros t Ht. split.
    + rewrite (thumbnail_outcome w _ t Ht), Ha, He, Hm. reflexivity.
    + intros path ts. rewrite (thumbnail_trace w _ t Ht), Ha.
      rewrite get_video_metadata_unfold in He. simpl in He. rewrite He.
      intros [H|H]%elem_of_app.
      * unfold check_trace in H. destruct (str_truthy _).
        -- apply elem_of_cons in H as [[=]|[]%elem_of_nil].
        -- apply elem_of_nil in H as [].
      * apply elem_of_cons in H as [[=]|[]%elem_of_nil].
Qed.

Lemma failed_probe_in_handlers_witness :
  outcome (thumbnail (Samples.world [] (Err (FfmpegError "moov atom not found")))
                     (Samples.request [("timestamp", "5")]))
  = Err (FfmpegError "moov atom not found").
Proof.
  pose proof (failed_probe_in_handlers
                (Samples.world [] (Err (FfmpegError "moov atom not found")))
                (Samples.request [("timestamp", "5")])
                (FfmpegError "moov atom not found") eq_refl eq_refl)
    as (_ & Hm & Ht).
  destruct (Ht (Float64.of_Z 5) eq_refl) as [-> _].
  apply Hm. reflexivity.
Defined.

(** X8. The end of a thumbnail request that passed every check. For a
    resolved path, a probed record and a timestamp that passes the bounds
    test, the response is the bytes the extraction wrote, as [image/png];
    a [ValueError] or [ffmpeg.Error] of the extraction becomes the 500 JSON
    body "Error generating thumbnail"; any other exception of the
    extraction leaves the handler uncaught. *)
Theorem extraction_outcome (w : World) (request : Request) (t : spec_float)
    (meta : VideoMetadata) :
  available w request = true ->
  args request !! "timestamp" ≫= PyStr.parse_float = Some t ->
  outcome (get_video_metadata w (requested_path request)) = Ok meta ->
  out_of_bounds t (duration meta) = false ->
  (forall out, ffmpeg_run w (requested_path request) t = Ok out ->
     outcome (thumbnail w request) = Ok (Data out "image/png"))
  /\ (forall e, ffmpeg_run w (requested_path request) t = Err e ->
        outcome (thumbnail w request) =
          match e with
          | ValueError | FfmpegError _ =>
              Ok (JsonErrorExc 500 "Error generating thumbnail" "details" e)
          | _ => Err e
          end).
Proof.
  intros Ha Ht Hm Hb.
  pose proof (thumbnail_outcome w request t Ht) as H.
  rewrite Ha, Hm, extract_frame_outcome, Hb in H.
  split.
  - intros out Hr. rewrite H, Hr. reflexivity.
  - intros e Hr. rewrite H, Hr. destruct e; reflexivity.
Qed.

Lemma extraction_outcome_witness :
  outcome (thumbnail (Samples.world [] (Ok (Samples.probe_of "30/1")))
                     (Samples.request [("timestamp", "2.5")]))
  = Ok (Data "PNG" "image/png").
Proof.
  apply (extraction_outcome
           (Samples.world [] (Ok (Samples.probe_of "30/1")))
           (Samples.request [("timestamp", "2.5")])
           (Float64.of_ratio false 5 2)
           {| codec := JStr "h264"; width := 640; height := 480;
              duration := Float64.of_Z 10; framerate := Float64.of_Z 30 |});
    vm_compute; reflexivity.
Defined.

(** X9. The duration [metadata] reports is the bound [thumbnail] enforces.
    If [metadata] answers a request with a record, then a [thumbnail]
    request for the same identifier, in the same world, answers "Timestamp
    out of video duration bounds" exactly when its timestamp is below zero
    or above that record's duration, and otherwise ends as the extraction
    for that timestamp ends. *)
Theorem thumbnail_bound_is_reported_duration (w : World)
    (request_m request_t : Request) (meta : VideoMetadata) (t : spec_float) :
  args request_t !! "video_id" = args request_m !! "video_id" ->
  outcome (metadata w request_m) = Ok (JsonMeta meta) ->
  args request_t !! "timestamp" ≫= PyStr.parse_float = Some t ->
  (outcome (thumbnail w request_t) =
     Ok (JsonError 400 "Timestamp out of video duration bounds")
   <-> out_of_bounds t (duration meta) = true)
  /\ outcome (thumbnail w request_t) =
       outcome (extract_frame w (requested_path request_t) t (duration meta)).
Proof.
  intros Hid Hm Ht.
  assert (Hav : available w request_t = available w request_m)
    by (unfold available, requested_path; rewrite Hid; reflexivity).
  assert (Hp : requested_path request_t = requested_path request_m)
    by (unfold requested_path; rewrite Hid; reflexivity).
  rewrite metadata_outcome in Hm.
  destruct (available w request_m) eqn:Ha; [|discriminate].
  destruct (outcome (get_video_metadata w (requested_path request_m)))
    as [meta'|e] eqn:Hg; [|destruct (is_ProbeError e); discriminate].
  injection Hm as ->.
  assert (Hout : outcome (thumbnail w request_t) =
                 outcome (extract_frame w (requested_path request_t) t (duration meta)))
    by (rewrite (thumbnail_outcome w _ t Ht), Hav, Hp, Hg; reflexivity).
  split; [|exact Hout].
  rewrite Hout, extract_frame_outcome.
  destruct (out_of_bounds t (duration meta)); [split; reflexivity|].
  split; [|discriminate].
  destruct (ffmpeg_run w _ t) as [out|e']; [discriminate|].
  destruct (run_caught e'); discriminate.
Qed.

Lemma thumbnail_bound_is_reported_duration_witness :
  outcome (thumbnail (Samples.world [] (Ok (Samples.probe_of "30/1")))
                     (Samples.request [("timestamp", "10.5")]))
  = Ok (JsonError 400 "Timestamp out of video duration bounds").
Proof.
  apply (thumbnail_bound_is_reported_duration
           (Samples.world [] (Ok (Samples.probe_of "30/1")))
           (Samples.request [])
           (Samples.request [("timestamp", "10.5")])
           {| codec := JStr "h264"; width := 640; height := 480;
              duration := Float64.of_Z 10; framerate := Float64.of_Z 30 |}
           (Float64.of_ratio false 21 2));
    vm_compute; reflexivity.
Defined.

(** X10. An empty identifier is an absent one. A request with
    [video_id=] (the empty string) is answered by [metadata], [thumbnail]
    and [serve_video] exactly as the same request without the parameter:
    same calls, same response, both about the default video. *)
Theorem empty_video_id_is_default (w : World) (request : Request) :
  args request !! "video_id" = Some "" ->
  metadata w request = metadata w (without_video_id request)
  /\ thumbnail w request = thumbnail w (without_video_id request)
  /\ serve_video w request = serve_video w (without_video_id request)
  /\ serve_video w request = mkM [] (Ok (SendFile "static/video.mp4" "video/mp4")).
Proof.
  intros Hid.
  assert (Hdel : args (without_video_id request) !! "video_id" = None)
    by apply lookup_delete_eq.
  assert (Hts : args (without_video_id request) !! "timestamp"
                = args request !! "timestamp")
    by (apply lookup_delete_ne; discriminate).
  repeat apply conj.
  - unfold metadata, with_video_path. rewrite Hid, Hdel. reflexivity.
  - unfold thumbnail, with_video_path. rewrite Hts, Hid, Hdel. reflexivity.
  - unfold serve_video. rewrite Hid, Hdel. reflexivity.
  - unfold serve_video. rewrite Hid. reflexivity.
Qed.

Lemma empty_video_id_is_default_witness :
  serve_video (Samples.world [] (Err ValueError))
              (Samples.request [("video_id", "")])
  = mkM [] (Ok (SendFile "static/video.mp4" "video/mp4")).
Proof.
  apply (empty_video_id_is_default (Samples.world [] (Err ValueError))
           (Samples.request [("video_id", "")])).
  reflexivity.
Defined.

(** A quotient by a non-zero divisor is NaN only for a NaN operand or for
    two infinities. *)
Lemma div_nan (x y : spec_float) :
  Float64.eqb y Float64.zero = false ->
  Float64.is_nan (Float64.div x y) = true ->
  Float64.is_nan x = true \/ Float64.is_nan y = true
  \/ Float64.is_inf x && Float64.is_inf y = true.
Proof.
  intros Hy.
  destruct x as [sx|sx| |sx mx ex], y as [sy|sy| |sy my ey];
    simpl; auto; try discriminate.
  pose proof (Float64Facts.div_finite_signed sx sy mx my ex ey) as Hs.
  unfold Float64.div in Hs. simpl in Hs.
  destruct (SFdiv_core_binary _ _ _ _ _ _) as [[q e] l].
  destruct (binary_round_aux _ _ _ _ _ _); simpl in *;
    try discriminate; contradiction.
Qed.

(** X11. Where a NaN frame rate can come from. The prober returns a NaN
    frame rate only when the numerator or the denominator of
    [r_frame_rate] is itself read as NaN, or when both are infinite; in
    particular finite numerators and denominators never give NaN, the
    zero denominator being replaced by 0.0. *)
Theorem framerate_nan_only_from_input (vs : gmap string json) (fr : spec_float) :
  framerate_of (JObj vs) = Ok fr ->
  Float64.is_nan fr = true ->
  exists s num den n d,
    default (JStr "0/0") (vs !! "r_frame_rate") = JStr s
    /\ PyStr.split "/" s = [num; den]
    /\ PyStr.parse_float num = Some n /\ PyStr.parse_float den = Some d
    /\ (Float64.is_nan n = true \/ Float64.is_nan d = true
        \/ Float64.is_inf n && Float64.is_inf d = true).
Proof.
  intros (s & num & den & d & Hr & Hs & Hd & [[_ ->]|(Hz & n & Hn & ->)])%framerate_of_Ok;
    [discriminate|].
  intros Hnan. exists s, num, den, n, d.
  repeat split; try assumption. apply (div_nan n d Hz Hnan).
Qed.

Lemma framerate_nan_only_from_input_witness :
  exists s num den n d,
    default (JStr "0/0") (Samples.video_stream "inf/inf" !! "r_frame_rate") = JStr s
    /\ PyStr.split "/" s = [num; den]
    /\ PyStr.parse_float num = Some n /\ PyStr.parse_float den = Some d
    /\ (Float64.is_nan n = true \/ Float64.is_nan d = true
        \/ Float64.is_inf n && Float64.is_inf d = true).
Proof.
  apply (framerate_nan_only_from_input (Samples.video_stream "inf/inf") Float64.nan);
    vm_compute; reflexivity.
Defined.

Lemma split_length (sep : ascii) (s : string) :
  length (PyStr.split sep s) = S (count_char sep s).
Proof.
  induction s as [|c s IH]; simpl; [reflexivity|].
  destruct (Ascii.eqb c sep); simpl.
  - rewrite IH. reflexivity.
  - destruct (PyStr.split sep s) as [|p ps]; simpl in *; [discriminate|exact IH].
Qed.

(** X12. Exactly one slash. For a string [r_frame_rate] (or the default
    ["0/0"]), the frame-rate computation succeeds only if the string
    contains exactly one ['/']; with none, or with two or more, it raises
    [ValueError] whatever the parts are. *)
Theorem frame_rate_needs_one_slash (vs : gmap string json) (s : string) :
  default (JStr "0/0") (vs !! "r_frame_rate") = JStr s ->
  (count_char "/" s <> 1%nat -> framerate_of (JObj vs) = Err ValueError)
  /\ (forall fr, framerate_of (JObj vs) = Ok fr -> count_char "/" s = 1%nat).
Proof.
  intros Hr.
  assert (Hbad : count_char "/" s <> 1%nat -> framerate_of (JObj vs) = Err ValueError).
  { intros Hc. pose proof (split_length "/" s) as Hl.
    unfold framerate_of, Py.get. res_simpl. rewrite Hr. simpl.
    destruct (PyStr.split "/" s) as [|a [|b [|c l]]]; simpl in *;
      try reflexivity.
    exfalso. apply Hc. lia. }
  split; [exact Hbad|].
  intros fr Hfr. destruct (Nat.eq_dec (count_char "/" s) 1%nat) as [E|E]; [exact E|].
  rewrite (Hbad E) in Hfr. discriminate.
Qed.

Lemma frame_rate_needs_one_slash_witness :
  framerate_of (JObj (Samples.video_stream "30000/1001/1")) = Err ValueError.
Proof.
  apply (frame_rate_needs_one_slash (Samples.video_stream "30000/1001/1")
           "30000/1001/1" eq_refl).
  vm_compute. discriminate.
Defined.

(** X13. Degenerate durations at the bounds test of [thumbnail]. Against a
    negative duration every timestamp that is a number is rejected;
    against a zero duration only a zero timestamp passes (and NaN, which
    no comparison rejects); against an infinite duration every timestamp
    that is not below zero passes. *)
Theorem degenerate_durations (t d : spec_float) :
  (Float64.ltb d Float64.zero = true -> Float64.is_nan t = false ->
     out_of_bounds t d = true)
  /\ (Float64.eqb d Float64.zero = true ->
        (out_of_bounds t d = false <->
           Float64.eqb t Float64.zero = true \/ Float64.is_nan t = true))
  /\ (d = Float64.inf false ->
        (out_of_bounds t d = false <-> Float64.ltb t Float64.zero = false)).
Proof.
  repeat apply conj.
  - destruct d as [sd|sd| |sd md ed]; try discriminate;
      destruct sd; try discriminate; intros _;
      destruct t as [st|st| |st mt et]; try discriminate;
      try destruct st; intros _; reflexivity.
  - destruct d as [sd|sd| |sd md ed]; try discriminate;
      try (destruct sd; discriminate); intros _;
      destruct t as [st|st| |st mt et]; try destruct st; simpl;
      split; auto; try discriminate; intros [H|H]; discriminate.
  - intros ->. unfold out_of_bounds.
    destruct t as [st|st| |st mt et]; try destruct st; simpl;
      split; auto; discriminate.
Qed.

Lemma degenerate_durations_witness :
  out_of_bounds Float64.zero (Float64.of_Z (-10)) = true.
Proof.
  apply (degenerate_durations Float64.zero (Float64.of_Z (-10))); reflexivity.
Defined.

(** X14. When [set_video] starts a download. A download is started only
    for a body that is a JSON object whose [youtube_url] is present and
    true, at most once, and with exactly that value. A missing, null or
    empty [youtube_url] is answered 400 "No YouTube URL provided" without a
    download, and a body that is not an object raises [AttributeError]
    without a download. *)
Theorem set_video_download_guard (extract_info : json -> Download)
    (request_json : json) :
  (forall url, url ∈ downloads (set_video extract_info request_json) ->
     downloads (set_video extract_info request_json) = [url]
     /\ Py.truthy url = true
     /\ exists body, request_json = JObj body /\ body !! "youtube_url" = Some url)
  /\ (forall body, request_json = JObj body ->
        Py.truthy (default JNull (body !! "youtube_url")) = false ->
        set_video extract_info request_json =
          {| downloads := [];
             reply := Ok (SetError 400 "No YouTube URL provided") |})
  /\ ((forall body, request_json <> JObj body) ->
        set_video extract_info request_json =
          {| downloads := []; reply := Err AttributeError |}).
Proof.
  repeat apply conj.
  - intros url. unfold set_video.
    destruct request_json as [| | | | | |body]; simpl;
      try (intros []%elem_of_nil).
    destruct (body !! "youtube_url") as [u|] eqn:Hu; simpl;
      [|intros []%elem_of_nil].
    destruct (Py.truthy u) eqn:Ht; simpl; [|intros []%elem_of_nil].
    intros [->|[]%elem_of_nil]%elem_of_cons.
    split; [reflexivity|]. split; [exact Ht|]. eauto.
  - intros body -> Hf. unfold set_video. simpl. rewrite Hf. reflexivity.
  - intros Hn. destruct request_json as [| | | | | |body]; try reflexivity.
    destruct (Hn body eq_refl).
Qed.

Lemma set_video_download_guard_witness :
  set_video (fun _ => YoutubeDLError "unreachable")
            (Samples.obj [("youtube_url", JStr "")])
  = {| downloads := []; reply := Ok (SetError 400 "No YouTube URL provided") |}.
Proof.
  pose proof (set_video_download_guard (fun _ => YoutubeDLError "unreachable")
                (Samples.obj [("youtube_url", JStr "")])) as (_ & H & _).
  apply (H _ eq_refl). reflexivity.
Defined.

(** X15. What a successful [set_video] guarantees. The reply is "Video
    updated successfully" with an id exactly when the URL was true, yt-dlp
    returned an info dict, and the dict's [id] is true; that id is then the
    one reported. A string id reported this way is never empty, so the
    locator does not fall back to the default video for it: it checks
    [static/cache/cached_{id}.mp4], the file name of the download template.
    When yt-dlp returns an info dict without a true [id], the reply is 400
    "Unable to extract video id" although the download was made. *)
Theorem set_video_updated (extract_info : json -> Download)
    (request_json : json) (w : World) :
  (forall v, reply (set_video extract_info request_json) = Ok (SetUpdated v) <->
     exists body url info,
       request_json = JObj body /\ body !! "youtube_url" = Some url
       /\ Py.truthy url = true
       /\ extract_info url = Extracted (JObj info)
       /\ info !! "id" = Some v /\ Py.truthy v = true)
  /\ (forall id, reply (set_video extract_info request_json)
                 = Ok (SetUpdated (JStr id)) ->
        id <> ""
        /\ get_video_path w (Some id) =
             mkM [EvExists ("static/cache/cached_" +:+ id +:+ ".mp4")]
                 (Ok (if os_path_exists w ("static/cache/cached_" +:+ id +:+ ".mp4")
                      then Some ("static/cache/cached_" +:+ id +:+ ".mp4")
                      else None)))
  /\ (forall body url info,
        request_json = JObj body -> body !! "youtube_url" = Some url ->
        Py.truthy url = true -> extract_info url = Extracted (JObj info) ->
        Py.truthy (default JNull (info !! "id")) = false ->
        set_video extract_info request_json =
          {| downloads := [url];
             reply := Ok (SetError 400 "Unable to extract video id") |}).
Proof.
  assert (Hiff : forall v,
    reply (set_video extract_info request_json) = Ok (SetUpdated v) <->
    exists body url info,
      request_json = JObj body /\ body !! "youtube_url" = Some url
      /\ Py.truthy url = true
      /\ extract_info url = Extracted (JObj info)
      /\ info !! "id" = Some v /\ Py.truthy v = true).
  { intros v. split.
    - unfold set_video.
      destruct request_json as [| | | | | |body]; simpl; try discriminate.
      destruct (body !! "youtube_url") as [u|] eqn:Hu; simpl; [|discriminate].
      destruct (Py.truthy u) eqn:Ht; simpl; [|discriminate].
      destruct (extract_info u) as [info|msg|e] eqn:Hx; try discriminate.
      destruct info as [| | | | | |info]; simpl; try discriminate.
      res_simpl.
      destruct (info !! "id") as [i|] eqn:Hi; simpl; [|discriminate].
      destruct (Py.truthy i) eqn:Hti; simpl; [|discriminate].
      intros [= <-]. exists body, u, info. auto 10.
    - intros (body & url & info & -> & Hu & Ht & Hx & Hi & Hti).
      unfold set_video. simpl. rewrite Hu. simpl. rewrite Ht. simpl.
      rewrite Hx. simpl. res_simpl. rewrite Hi. simpl. rewrite Hti. reflexivity. }
  split; [exact Hiff|]. split.
  - intros id (body & url & info & _ & _ & _ & _ & _ & Hti)%Hiff.
    assert (Hne : id <> "")
      by (simpl in Hti; apply negb_true_iff, String.eqb_neq in Hti; exact Hti).
    split; [exact Hne|].
    apply (get_video_path_truthy w (Some id)), str_truthy_Some, Hne.
  - intros body url info -> Hu Ht Hx Hf.
    unfold set_video. simpl. rewrite Hu. simpl. rewrite Ht. simpl.
    rewrite Hx. simpl. res_simpl. rewrite Hf. reflexivity.
Qed.

Lemma set_video_updated_witness :
  set_video (fun _ => Extracted (Samples.obj [("title", JStr "Demo")]))
            (Samples.obj [("youtube_url", JStr "https://youtu.be/abc123")])
  = {| downloads := [JStr "https://youtu.be/abc123"];
       reply := Ok (SetError 400 "Unable to extract video id") |}.
Proof.
  pose proof (set_video_updated
                (fun _ => Extracted (Samples.obj [("title", JStr "Demo")]))
                (Samples.obj [("youtube_url", JStr "https://youtu.be/abc123")])
                (Samples.world [] (Err ValueError))) as (_ & _ & H).
  apply (H _ (JStr "https://youtu.be/abc123")
           (list_to_map [("title", JStr "Demo")]) eq_refl);
    reflexivity.
Defined.

(** X16. Only the first video stream counts. The record, or the exception,
    of the prober is the same whether the probe result lists the streams
    of other types before the first video stream and whatever follows it,
    well-formed or not, or lists that video stream alone. *)
Theorem only_first_video_stream_counts (probe : gmap string json)
    (pre post : list json) (stream : json) :
  Forall (fun s => declares_other s = true) pre ->
  declares_video stream = true ->
  metadata_of_probe (JObj (<["streams" := JList (pre ++ stream :: post)]> probe))
  = metadata_of_probe (JObj (<["streams" := JList [stream]]> probe)).
Proof.
  intros Hpre Hv. destruct (declares_video_inv _ Hv) as (vs & -> & _).
  assert (Hsel : forall l,
    video_stream_of (JObj (<["streams" := JList l]> probe)) = next_video_stream l).
  { intros l. unfold video_stream_of. simpl. rewrite lookup_insert_eq. reflexivity. }
  assert (Hfmt : forall l,
    Py.getitem (JObj (<["streams" := JList l]> probe)) "format"
    = Py.getitem (JObj probe) "format").
  { intros l. simpl. rewrite lookup_insert_ne by discriminate. reflexivity. }
  rewrite (metadata_of_probe_selected _ vs); [|rewrite Hsel|exact Hv].
  2:{ apply next_video_stream_first; assumption. }
  rewrite (metadata_of_probe_selected _ vs); [|rewrite Hsel|exact Hv].
  2:{ apply (next_video_stream_first [] _ []); [constructor|exact Hv]. }
  rewrite !Hfmt. reflexivity.
Qed.

Lemma only_first_video_stream_counts_witness :
  metadata_of_probe
    (JObj (<["streams" := JList [Samples.audio_stream;
                                 JObj (Samples.video_stream "30/1");
                                 JStr "not a stream"]]>
             (list_to_map [("format", Samples.obj [("duration", JStr "10.000000")])])))
  = Ok {| codec := JStr "h264"; width := 640; height := 480;
          duration := Float64.of_Z 10; framerate := Float64.of_Z 30 |}.
Proof.
  etransitivity.
  - exact (only_first_video_stream_counts
             (list_to_map [("format", Samples.obj [("duration", JStr "10.000000")])])
             [Samples.audio_stream] [JStr "not a stream"]
             (JObj (Samples.video_stream "30/1"))
             ltac:(repeat constructor) eq_refl).
  - vm_compute. reflexivity.
Defined.
